(** * Webhook notification channel (src/webhook.py)

    A shallow embedding of [WebhookNotification]: the content formatter
    ([_error_template], [_get_content], [_get_subject]) and the dispatcher
    ([_get_to], [send]), together with executable models of the library
    calls the module makes ([gettext] substitution, [base64.b64encode],
    [json.loads], [json.dumps], [Response.raise_for_status]).

    Conventions.
    - A Python [str] is a Rocq [string] holding its UTF-8 encoding; a Python
      [bytes] is a [list byte].
    - A Python [dict] is an association list in insertion order (the order
      [json.dumps] prints).
    - A Python call that may raise returns [PyExc + A]; code with effects
      (the POST, the log record) runs in the monad [Eff]. *)

From Stdlib Require Import String Ascii List ZArith Lia Bool Zbitwise.
From Stdlib Require Import Strings.Byte DecimalString.
Import ListNotations.
Local Open Scope list_scope.
Local Open Scope string_scope.

Local Set Warnings "-register-all".

(* ===================================================================== *)
(** ** Python strings *)
(* ===================================================================== *)

Module Str.

Definition nl : ascii := "010"%char.
Definition dquote : ascii := "034"%char.
Definition backslash : ascii := "092"%char.

Definition of_char (c : ascii) : string := String c EmptyString.

(** [sep.join(parts)] *)
Definition join (sep : string) (parts : list string) : string :=
  String.concat sep parts.

(** [n] copies of the space character (source indentation). *)
Fixpoint spaces (n : nat) : string :=
  match n with
  | O => EmptyString
  | S k => String " " (spaces k)
  end.

(** [needle in hay] *)
Definition contains (needle hay : string) : Prop :=
  exists pre post, hay = pre ++ needle ++ post.

(** Decimal text of an integer, as [str(n)] and [%d] print it. *)
Definition of_Z (n : Z) : string :=
  NilZero.string_of_int (Z.to_int n).

End Str.

(** Truthiness of the optional values tested by [if x:] and [x or d]. *)
Definition truthy_str (o : option string) : bool :=
  match o with
  | Some (String _ _) => true
  | _ => false
  end.

Definition truthy_bytes (o : option (list byte)) : bool :=
  match o with
  | Some (_ :: _) => true
  | _ => false
  end.

Definition truthy_list {A} (o : option (list A)) : bool :=
  match o with
  | Some (_ :: _) => true
  | _ => false
  end.

(** [o or d] for an optional string. *)
Definition str_or (o : option string) (d : string) : string :=
  match o with
  | Some (String c s) => String c s
  | _ => d
  end.

(* ===================================================================== *)
(** ** Values and exceptions *)
(* ===================================================================== *)

(** The Python values the module builds and hands to [json.dumps]. *)
Inductive pyval : Type :=
| PNone
| PStr (s : string)
| PBytes (b : list byte)
| PList (items : list pyval)
| PDict (entries : list (string * pyval)).

(** What [json.loads] returns.  A number is kept as its token. *)
Inductive json : Type :=
| JNull
| JBool (b : bool)
| JNum (token : string)
| JStr (s : string)
| JArr (items : list json)
| JObj (members : list (string * json)).

(** Modelled from the spec: one of the structured errors an aggregated
    fault carries (superset.errors.SupersetError); the channel reads its
    [message]. *)
Record SupersetError := {
  message : string;
  error_type : string;
  level : string
}.

(** The exceptions that occur.  [RequestException] stands for the faults of
    the HTTP client other than [HTTPError] (connection, timeout, TLS,
    invalid URL); [SupersetErrorsException] carries, next to its errors, the
    text its constructor (outside this module) passes to [Exception];
    [NotificationError] keeps the exception it was raised [from]. *)
Inductive PyExc : Type :=
| JSONDecodeError (msg : string)
| KeyError (key : string)
| TypeError (msg : string)
| ValueError (msg : string)
| HTTPError (msg : string)
| RequestException (msg : string)
| SupersetErrorsException (errors : list SupersetError) (text : string)
| NotificationError (msg : string) (cause : PyExc).

(** [repr] of a string key as [KeyError] shows it (keys without quotes or
    escapes, which is all this module looks up). *)
Definition repr_key (k : string) : string := "'" ++ k ++ "'".

(** [str(ex)] *)
Definition exc_str (ex : PyExc) : string :=
  match ex with
  | JSONDecodeError m => m
  | KeyError k => repr_key k
  | TypeError m => m
  | ValueError m => m
  | HTTPError m => m
  | RequestException m => m
  | SupersetErrorsException _ m => m
  | NotificationError m _ => m
  end.

(** A call that may raise. *)
Definition Res (A : Type) : Type := (PyExc + A)%type.

Definition res_bind {A B} (r : Res A) (k : A -> Res B) : Res B :=
  match r with
  | inl e => inl e
  | inr a => k a
  end.

Definition res_map {A B} (f : A -> B) (r : Res A) : Res B :=
  res_bind r (fun a => inr (f a)).

(* ===================================================================== *)
(** ** flask_babel.gettext *)
(* ===================================================================== *)

(** [gettext(template, **variables)] returns the template with its
    variables substituted by Python's [%] operator; the catalogue lookup is
    the identity.  Of the [%] mini-language the model covers what the
    templates of this module use: the named conversion [%(key)s] and the
    escape [%%]; a missing key is a [KeyError], anything else a
    [ValueError]. *)
Module Gettext.

Inductive state : Type :=
| Lit                       (* copying literal text *)
| Percent                   (* just read a percent sign *)
| Key (read : string)       (* inside the parentheses *)
| Conv (key : string).      (* after the closing parenthesis *)

Fixpoint lookup (k : string) (vars : list (string * string)) : option string :=
  match vars with
  | [] => None
  | (k', v) :: rest => if String.eqb k k' then Some v else lookup k rest
  end.

Fixpoint subst (st : state) (template : string)
         (vars : list (string * string)) : Res string :=
  match template with
  | EmptyString =>
      match st with
      | Lit => inr EmptyString
      | _ => inl (ValueError "incomplete format")
      end
  | String c rest =>
      match st with
      | Lit =>
          if Ascii.eqb c "%" then subst Percent rest vars
          else res_map (String c) (subst Lit rest vars)
      | Percent =>
          if Ascii.eqb c "(" then subst (Key EmptyString) rest vars
          else if Ascii.eqb c "%" then res_map (String "%") (subst Lit rest vars)
          else inl (ValueError "unsupported format character")
      | Key read =>
          if Ascii.eqb c ")" then subst (Conv read) rest vars
          else subst (Key (read ++ Str.of_char c)) rest vars
      | Conv key =>
          if Ascii.eqb c "s" then
            match lookup key vars with
            | Some v => res_map (append v) (subst Lit rest vars)
            | None => inl (KeyError key)
            end
          else inl (ValueError "unsupported format character")
      end
  end.

Definition gettext (template : string) (vars : list (string * string)) : Res string :=
  subst Lit template vars.

End Gettext.

Notation "'__'" := Gettext.gettext (only parsing).

(* ===================================================================== *)
(** ** base64.b64encode *)
(* ===================================================================== *)

Module Base64.

Definition alphabet : string :=
  "ABCDEFGHIJKLMNOPQRSTUVWXYZabcdefghijklmnopqrstuvwxyz0123456789+/".

Definition pad : ascii := "="%char.

(** The value of a byte, 0..255. *)
Definition u8 (b : byte) : Z := Z.of_N (Byte.to_N b).

(** The alphabet character of a 6-bit value. *)
Definition table_b2a (i : Z) : ascii :=
  match String.get (Z.to_nat i) alphabet with
  | Some c => c
  | None => pad
  end.

(** Three bytes as one 24-bit number, first byte highest. *)
Definition group (a b c : Z) : Z :=
  Z.lor (Z.shiftl (Z.lor (Z.shiftl a 8) b) 8) c.

(** The character for the 6 bits of [n] that start at bit [shift]. *)
Definition sextet (n : Z) (shift : Z) : ascii :=
  table_b2a (Z.land (Z.shiftr n shift) 63).

(** Three bytes make a 24-bit group printed as four characters; a last
    group of one or two bytes is filled with zero bits and padded with
    [=]. *)
Fixpoint b2a (data : list byte) : string :=
  match data with
  | [] => EmptyString
  | [a] =>
      let n := group (u8 a) 0 0 in
      String (sextet n 18) (String (sextet n 12) (String pad (String pad EmptyString)))
  | [a; b] =>
      let n := group (u8 a) (u8 b) 0 in
      String (sextet n 18) (String (sextet n 12) (String (sextet n 6)
        (String pad EmptyString)))
  | a :: b :: c :: rest =>
      let n := group (u8 a) (u8 b) (u8 c) in
      String (sextet n 18) (String (sextet n 12) (String (sextet n 6)
        (String (sextet n 0) (b2a rest))))
  end.

(** [base64.b64encode(data).decode('ascii')]: the encoder's output is in
    the alphabet or [=], all ASCII, so the decoding step is the identity
    on the representation and cannot raise. *)
Definition b64encode_ascii (data : list byte) : string := b2a data.

(** *** Reference decoder

    The inverse transformation as RFC 4648, section 4, defines it.  The
    channel never decodes; the decoder is here to say what it means for a
    text to be valid base64 of some bytes. *)

Fixpoint index_from (i : Z) (c : ascii) (table : string) : option Z :=
  match table with
  | EmptyString => None
  | String x rest => if Ascii.eqb x c then Some i else index_from (i + 1) c rest
  end.

Definition table_a2b (c : ascii) : option Z := index_from 0 c alphabet.

Definition ungroup (i0 i1 i2 i3 : Z) : Z :=
  Z.lor (Z.shiftl (Z.lor (Z.shiftl (Z.lor (Z.shiftl i0 6) i1) 6) i2) 6) i3.

Definition octet (n : Z) (shift : Z) : option byte :=
  Byte.of_N (Z.to_N (Z.land (Z.shiftr n shift) 255)).

Definition opt_cons {A} (x : option A) (l : option (list A)) : option (list A) :=
  match x, l with
  | Some a, Some r => Some (a :: r)
  | _, _ => None
  end.

Fixpoint a2b (s : string) : option (list byte) :=
  match s with
  | EmptyString => Some []
  | String c0 (String c1 (String c2 (String c3 rest))) =>
      match table_a2b c0, table_a2b c1 with
      | Some i0, Some i1 =>
          if Ascii.eqb c3 pad then
            match rest with
            | EmptyString =>
                if Ascii.eqb c2 pad then
                  opt_cons (octet (ungroup i0 i1 0 0) 16) (Some [])
                else
                  match table_a2b c2 with
                  | Some i2 =>
                      let n := ungroup i0 i1 i2 0 in
                      opt_cons (octet n 16) (opt_cons (octet n 8) (Some []))
                  | None => None
                  end
            | String _ _ => None
            end
          else
            match table_a2b c2, table_a2b c3 with
            | Some i2, Some i3 =>
                let n := ungroup i0 i1 i2 i3 in
                opt_cons (octet n 16) (opt_cons (octet n 8) (opt_cons (octet n 0)
                  (a2b rest)))
            | _, _ => None
            end
      | _, _ => None
      end
  | _ => None
  end.

End Base64.

(* ===================================================================== *)
(** ** Characters and UTF-8 *)
(* ===================================================================== *)

Module Char.

Definition code (c : ascii) : Z := Z.of_N (N_of_ascii c).
Definition chr (n : Z) : ascii := ascii_of_N (Z.to_N n).

Definition in_range (lo hi : Z) (c : ascii) : bool :=
  ((lo <=? code c) && (code c <=? hi))%Z.

Definition is_digit : ascii -> bool := in_range 48 57.
Definition is_digit19 : ascii -> bool := in_range 49 57.
(** A UTF-8 continuation byte, 10xxxxxx. *)
Definition is_cont : ascii -> bool := in_range 128 191.

Definition hex_digit (n : Z) : ascii :=
  match String.get (Z.to_nat n) "0123456789abcdef" with
  | Some c => c
  | None => "0"%char
  end.

(** Four lower-case hexadecimal digits, as [format(n, '04x')]. *)
Definition hex4 (n : Z) : string :=
  String (hex_digit (Z.land (Z.shiftr n 12) 15))
 (String (hex_digit (Z.land (Z.shiftr n 8) 15))
 (String (hex_digit (Z.land (Z.shiftr n 4) 15))
 (String (hex_digit (Z.land n 15)) EmptyString))).

Definition hex_value (c : ascii) : option Z :=
  if in_range 48 57 c then Some (code c - 48)%Z
  else if in_range 97 102 c then Some (code c - 87)%Z
  else if in_range 65 70 c then Some (code c - 55)%Z
  else None.

Definition hex4_value (a b c d : ascii) : option Z :=
  match hex_value a, hex_value b, hex_value c, hex_value d with
  | Some x, Some y, Some z, Some w => Some (((x * 16 + y) * 16 + z) * 16 + w)%Z
  | _, _, _, _ => None
  end.

(** The UTF-8 bytes of a code point (surrogates included, so that every
    Python string has an encoding). *)
Definition utf8 (cp : Z) : string :=
  let tail k := chr (Z.lor 128 (Z.land (Z.shiftr cp k) 63)) in
  if (cp <? 128)%Z then String (chr cp) EmptyString
  else if (cp <? 2048)%Z then
    String (chr (Z.lor 192 (Z.shiftr cp 6))) (String (tail 0%Z) EmptyString)
  else if (cp <? 65536)%Z then
    String (chr (Z.lor 224 (Z.shiftr cp 12)))
      (String (tail 6%Z) (String (tail 0%Z) EmptyString))
  else
    String (chr (Z.lor 240 (Z.shiftr cp 18)))
      (String (tail 12%Z) (String (tail 6%Z) (String (tail 0%Z) EmptyString))).

End Char.

(* ===================================================================== *)
(** ** json.dumps *)
(* ===================================================================== *)

Module JsonDumps.

Definition bs (c : ascii) : string := String Str.backslash (String c EmptyString).

(** One code point under [ensure_ascii=True]. *)
Definition escape_cp (cp : Z) : string :=
  if (cp =? 34)%Z then bs Str.dquote
  else if (cp =? 92)%Z then bs Str.backslash
  else if (cp =? 10)%Z then bs "n"
  else if (cp =? 13)%Z then bs "r"
  else if (cp =? 9)%Z then bs "t"
  else if (cp =? 8)%Z then bs "b"
  else if (cp =? 12)%Z then bs "f"
  else if ((32 <=? cp) && (cp <=? 126))%Z%bool then String (Char.chr cp) EmptyString
  else if (cp <? 65536)%Z then bs "u" ++ Char.hex4 cp
  else
    let n := (cp - 65536)%Z in
    let s1 := Z.lor 55296 (Z.land (Z.shiftr n 10) 1023) in
    let s2 := Z.lor 56320 (Z.land n 1023) in
    bs "u" ++ Char.hex4 s1 ++ bs "u" ++ Char.hex4 s2.

(** The body of [py_encode_basestring_ascii]: decode the next code point
    and escape it.  A byte that begins no UTF-8 sequence (it represents no
    Python string) is taken as the code point of its value. *)
Fixpoint escape (s : string) : string :=
  match s with
  | EmptyString => EmptyString
  | String c0 r0 =>
      let b0 := Char.code c0 in
      let single := escape_cp b0 ++ escape r0 in
      if (b0 <? 192)%Z then single
      else
        match r0 with
        | String c1 r1 =>
            if negb (Char.is_cont c1) then single
            else if (b0 <? 224)%Z then
              escape_cp (Z.lor (Z.shiftl (Z.land b0 31) 6) (Z.land (Char.code c1) 63))
                ++ escape r1
            else
              match r1 with
              | String c2 r2 =>
                  if negb (Char.is_cont c2) then single
                  else if (b0 <? 240)%Z then
                    escape_cp (Z.lor (Z.lor (Z.shiftl (Z.land b0 15) 12)
                                            (Z.shiftl (Z.land (Char.code c1) 63) 6))
                                     (Z.land (Char.code c2) 63))
                      ++ escape r2
                  else
                    match r2 with
                    | String c3 r3 =>
                        if negb (Char.is_cont c3) then single
                        else
                          escape_cp
                            (Z.lor (Z.lor (Z.lor (Z.shiftl (Z.land b0 7) 18)
                                                 (Z.shiftl (Z.land (Char.code c1) 63) 12))
                                          (Z.shiftl (Z.land (Char.code c2) 63) 6))
                                   (Z.land (Char.code c3) 63))
                            ++ escape r3
                    | EmptyString => single
                    end
              | EmptyString => single
              end
        | EmptyString => single
        end
  end.

Definition encode_str (s : string) : string :=
  String Str.dquote (escape s ++ String Str.dquote EmptyString).

Definition not_serializable (type_name : string) : PyExc :=
  TypeError ("Object of type " ++ type_name ++ " is not JSON serializable").

(** [json.dumps(obj)] with its default arguments: separators [", "] and
    [": "], keys in insertion order, [bytes] rejected. *)
Fixpoint dumps (obj : pyval) : Res string :=
  match obj with
  | PNone => inr "null"
  | PStr s => inr (encode_str s)
  | PBytes _ => inl (not_serializable "bytes")
  | PList items =>
      res_map (fun parts => "[" ++ Str.join ", " parts ++ "]")
        ((fix each (l : list pyval) : Res (list string) :=
            match l with
            | [] => inr []
            | x :: r =>
                res_bind (dumps x) (fun sx => res_map (cons sx) (each r))
            end) items)
  | PDict entries =>
      res_map (fun parts => "{" ++ Str.join ", " parts ++ "}")
        ((fix each (l : list (string * pyval)) : Res (list string) :=
            match l with
            | [] => inr []
            | (k, x) :: r =>
                res_bind (dumps x) (fun sx =>
                  res_map (cons (encode_str k ++ ": " ++ sx)) (each r))
            end) entries)
  end.

End JsonDumps.

(* ===================================================================== *)
(** ** json.loads *)
(* ===================================================================== *)

(** The decoder reads its input once, left to right.  The model is the same
    single pass: a scanner by structural recursion over the text, which
    hands each token to a push-down recogniser.  A [JSONDecodeError] carries
    the decoder's short message; the position Python appends to it is not
    modelled. *)
Module JsonLoads.

Inductive token : Type :=
| TScalar (v : json)          (* string, number, true, false, null *)
| TLBrace | TRBrace | TLBracket | TRBracket | TColon | TComma.

(** An enclosing container under construction. *)
Inductive frame : Type :=
| FArr (seen : list json)                          (* newest first *)
| FObj (seen : list (string * json)) (key : string).

Inductive pstate : Type :=
| ExpectValue (st : list frame)
| ArrOpen (st : list frame)                        (* after [ *)
| ArrNext (seen : list json) (st : list frame)     (* after an element *)
| ObjOpen (st : list frame)                        (* after { *)
| ObjKey (seen : list (string * json)) (st : list frame)   (* after , *)
| ObjColon (seen : list (string * json)) (key : string) (st : list frame)
| ObjNext (seen : list (string * json)) (st : list frame)  (* after a member *)
| Done (v : json).

(** [d[k] = v] on a dict: a key already there keeps its place. *)
Fixpoint dict_set (k : string) (v : json) (d : list (string * json))
  : list (string * json) :=
  match d with
  | [] => [(k, v)]
  | (k', v') :: r =>
      if String.eqb k k' then (k', v) :: r else (k', v') :: dict_set k v r
  end.

(** A finished value goes to the container around it. *)
Definition deliver (v : json) (st : list frame) : pstate :=
  match st with
  | [] => Done v
  | FArr seen :: up => ArrNext (v :: seen) up
  | FObj seen k :: up => ObjNext (dict_set k v seen) up
  end.

Definition expecting (ps : pstate) : string :=
  match ps with
  | ExpectValue _ | ArrOpen _ => "Expecting value"
  | ArrNext _ _ | ObjNext _ _ => "Expecting ',' delimiter"
  | ObjOpen _ | ObjKey _ _ => "Expecting property name enclosed in double quotes"
  | ObjColon _ _ _ => "Expecting ':' delimiter"
  | Done _ => "Extra data"
  end.

Definition step (ps : pstate) (t : token) : Res pstate :=
  match ps, t with
  | ExpectValue st, TScalar v => inr (deliver v st)
  | ExpectValue st, TLBracket => inr (ArrOpen st)
  | ExpectValue st, TLBrace => inr (ObjOpen st)
  | ArrOpen st, TRBracket => inr (deliver (JArr []) st)
  | ArrOpen st, TScalar v => inr (deliver v (FArr [] :: st))
  | ArrOpen st, TLBracket => inr (ArrOpen (FArr [] :: st))
  | ArrOpen st, TLBrace => inr (ObjOpen (FArr [] :: st))
  | ArrNext seen st, TComma => inr (ExpectValue (FArr seen :: st))
  | ArrNext seen st, TRBracket => inr (deliver (JArr (rev seen)) st)
  | ObjOpen st, TRBrace => inr (deliver (JObj []) st)
  | ObjOpen st, TScalar (JStr k) => inr (ObjColon [] k st)
  | ObjKey seen st, TScalar (JStr k) => inr (ObjColon seen k st)
  | ObjColon seen k st, TColon => inr (ExpectValue (FObj seen k :: st))
  | ObjNext seen st, TComma => inr (ObjKey seen st)
  | ObjNext seen st, TRBrace => inr (deliver (JObj seen) st)
  | _, _ => inl (JSONDecodeError (expecting ps))
  end.

(** Whether a value, or a string, may begin in this state. *)
Definition wants_value (ps : pstate) : bool :=
  match ps with
  | ExpectValue _ | ArrOpen _ => true
  | _ => false
  end.

Definition wants_string (ps : pstate) : bool :=
  match ps with
  | ExpectValue _ | ArrOpen _ | ObjOpen _ | ObjKey _ _ => true
  | _ => false
  end.

(** The decoder's number pattern as an automaton: an optional minus sign;
    a zero, or a non-zero digit and more digits; optionally a point and
    digits; optionally an exponent mark, a sign and digits. *)
Inductive nstate : Type :=
| NInit | NMinus | NZero | NInt | NDot | NFrac | NE | NESign | NExp.

Definition num_step (st : nstate) (c : ascii) : option nstate :=
  let dot := Ascii.eqb c "." in
  let e := Ascii.eqb c "e" || Ascii.eqb c "E" in
  let sign := Ascii.eqb c "+" || Ascii.eqb c "-" in
  let zero := Ascii.eqb c "0" in
  match st with
  | NInit =>
      if Ascii.eqb c "-" then Some NMinus
      else if zero then Some NZero
      else if Char.is_digit19 c then Some NInt else None
  | NMinus =>
      if zero then Some NZero else if Char.is_digit19 c then Some NInt else None
  | NZero => if dot then Some NDot else if e then Some NE else None
  | NInt =>
      if Char.is_digit c then Some NInt
      else if dot then Some NDot else if e then Some NE else None
  | NDot => if Char.is_digit c then Some NFrac else None
  | NFrac => if Char.is_digit c then Some NFrac else if e then Some NE else None
  | NE => if sign then Some NESign else if Char.is_digit c then Some NExp else None
  | NESign | NExp => if Char.is_digit c then Some NExp else None
  end.

Definition num_accepting (st : nstate) : bool :=
  match st with
  | NZero | NInt | NFrac | NExp => true
  | _ => false
  end.

Definition num_continues (st : nstate) (rest : string) : bool :=
  match rest with
  | String h _ => match num_step st h with Some _ => true | None => false end
  | EmptyString => false
  end.

(** The message when a number stops short: a lone minus sign is no value;
    otherwise the pattern matched a shorter number and the text after it
    is unexpected where a value has just ended. *)
Definition num_stop_msg (st : nstate) (ps : pstate) : string :=
  match st with
  | NInit | NMinus => "Expecting value"
  | _ =>
      match step ps (TScalar JNull) with
      | inr ps' => expecting ps'
      | inl _ => expecting ps
      end
  end.

(** What the scanner is in the middle of.  [Skip n next]: the next [n]
    characters were already read by look-ahead. *)
Inductive mode : Type :=
| Start
| InStr (read : string)
| InNum (st : nstate) (read : string)
| Skip (n : nat) (next : mode).

Definition skip (n : nat) (next : mode) : mode :=
  match n with
  | O => next
  | S _ => Skip n next
  end.

Definition is_ws (c : ascii) : bool :=
  Ascii.eqb c " " || Ascii.eqb c "009" || Ascii.eqb c "010" || Ascii.eqb c "013".

Definition punct (c : ascii) : option token :=
  if Ascii.eqb c "{" then Some TLBrace
  else if Ascii.eqb c "}" then Some TRBrace
  else if Ascii.eqb c "[" then Some TLBracket
  else if Ascii.eqb c "]" then Some TRBracket
  else if Ascii.eqb c ":" then Some TColon
  else if Ascii.eqb c "," then Some TComma
  else None.

Definition err {A} (m : string) : Res A := inl (JSONDecodeError m).

(** The character a one-letter escape stands for. *)
Definition simple_escape (c : ascii) : option ascii :=
  if Ascii.eqb c Str.dquote then Some Str.dquote
  else if Ascii.eqb c Str.backslash then Some Str.backslash
  else if Ascii.eqb c "/" then Some "/"%char
  else if Ascii.eqb c "b" then Some "008"%char
  else if Ascii.eqb c "f" then Some "012"%char
  else if Ascii.eqb c "n" then Some "010"%char
  else if Ascii.eqb c "r" then Some "013"%char
  else if Ascii.eqb c "t" then Some "009"%char
  else None.

Definition is_high_surrogate (cp : Z) : bool := ((55296 <=? cp) && (cp <=? 56319))%Z.
Definition is_low_surrogate (cp : Z) : bool := ((56320 <=? cp) && (cp <=? 57343))%Z.
Definition join_surrogates (hi lo : Z) : Z :=
  (65536 + Z.lor (Z.shiftl (hi - 55296) 10) (lo - 56320))%Z.

Definition bad_escape : string := "Invalid " ++ String Str.backslash "escape".
Definition bad_uescape : string := "Invalid " ++ String Str.backslash "uXXXX escape".
Definition unterminated : string := "Unterminated string starting at".

(** The escape that follows a backslash inside a string: the text it
    stands for and how many characters it takes.  A high surrogate
    directly followed by the escape of a low surrogate makes one code
    point with it. *)
Definition unescape (after : string) : Res (string * nat) :=
  match after with
  | EmptyString => err unterminated
  | String e r1 =>
      match simple_escape e with
      | Some x => inr (Str.of_char x, 1)
      | None =>
          if negb (Ascii.eqb e "u") then err bad_escape
          else
            match r1 with
            | String h1 (String h2 (String h3 (String h4 r5))) =>
                match Char.hex4_value h1 h2 h3 h4 with
                | None => err bad_uescape
                | Some cp =>
                    let alone := inr (Char.utf8 cp, 5) in
                    if negb (is_high_surrogate cp) then alone
                    else
                      match r5 with
                      | String b (String u r7) =>
                          if Ascii.eqb b Str.backslash && Ascii.eqb u "u" then
                            match r7 with
                            | String g1 (String g2 (String g3 (String g4 _))) =>
                                match Char.hex4_value g1 g2 g3 g4 with
                                | None => err bad_uescape
                                | Some lo =>
                                    if is_low_surrogate lo
                                    then inr (Char.utf8 (join_surrogates cp lo), 11)
                                    else alone
                                end
                            | _ => err bad_uescape
                            end
                          else alone
                      | _ => alone
                      end
                end
            | _ => err bad_uescape
            end
      end
  end.

Fixpoint starts_with (prefix s : string) : bool :=
  match prefix, s with
  | EmptyString, _ => true
  | String p prefix', String c s' => Ascii.eqb p c && starts_with prefix' s'
  | String _ _, EmptyString => false
  end.

(** The constant that begins the text, if one does. *)
Definition literal (s : string) : option (json * nat) :=
  if starts_with "null" s then Some (JNull, 4)
  else if starts_with "true" s then Some (JBool true, 4)
  else if starts_with "false" s then Some (JBool false, 5)
  else if starts_with "NaN" s then Some (JNum "NaN", 3)
  else if starts_with "Infinity" s then Some (JNum "Infinity", 8)
  else if starts_with "-Infinity" s then Some (JNum "-Infinity", 9)
  else None.

(** One more character [c] of a number in state [st]; [rest] is looked at
    to see whether the number goes on. *)
Definition number (st : nstate) (read : string) (ps : pstate)
           (c : ascii) (rest : string) : Res (mode * pstate) :=
  match num_step st c with
  | None => err (num_stop_msg st ps)
  | Some st' =>
      let read' := read ++ Str.of_char c in
      if num_continues st' rest then inr (InNum st' read', ps)
      else if num_accepting st' then
        res_map (pair Start) (step ps (TScalar (JNum read')))
      else err (num_stop_msg st' ps)
  end.

(** The scanner's move on the character [c], with [rest] after it. *)
Definition advance (m : mode) (ps : pstate) (c : ascii) (rest : string)
  : Res (mode * pstate) :=
  match m with
  | Skip n next => inr (skip (Nat.pred n) next, ps)
  | InNum st read => number st read ps c rest
  | InStr read =>
      if Ascii.eqb c Str.dquote then
        res_map (pair Start) (step ps (TScalar (JStr read)))
      else if (Char.code c <? 32)%Z then err "Invalid control character at"
      else if Ascii.eqb c Str.backslash then
        res_map (fun '(text, n) => (skip n (InStr (read ++ text)), ps)) (unescape rest)
      else inr (InStr (read ++ Str.of_char c), ps)
  | Start =>
      if is_ws c then inr (Start, ps)
      else
        match punct c with
        | Some t => res_map (pair Start) (step ps t)
        | None =>
            if Ascii.eqb c Str.dquote then
              if wants_string ps then inr (InStr EmptyString, ps)
              else err (expecting ps)
            else if negb (wants_value ps) then err (expecting ps)
            else
              match literal (String c rest) with
              | Some (v, n) =>
                  res_map (pair (skip (Nat.pred n) Start)) (step ps (TScalar v))
              | None => number NInit EmptyString ps c rest
              end
        end
  end.

(** At the end of the text. *)
Definition finish (m : mode) (ps : pstate) : Res json :=
  match m with
  | Start =>
      match ps with
      | Done v => inr v
      | _ => err (expecting ps)
      end
  | InStr _ => err unterminated
  | InNum st _ => err (num_stop_msg st ps)
  | Skip _ _ => err (expecting ps)
  end.

Fixpoint scan (m : mode) (ps : pstate) (s : string) : Res json :=
  match s with
  | EmptyString => finish m ps
  | String c rest =>
      match advance m ps c rest with
      | inl e => inl e
      | inr (m', ps') => scan m' ps' rest
      end
  end.

(** [json.loads(s)] *)
Definition loads (s : string) : Res json := scan Start (ExpectValue []) s.

Fixpoint lookup (k : string) (d : list (string * json)) : option json :=
  match d with
  | [] => None
  | (k', v) :: r => if String.eqb k k' then Some v else lookup k r
  end.

(** Whether a number token reads as a [float]. *)
Fixpoint is_float_token (t : string) : bool :=
  match t with
  | EmptyString => false
  | String c r =>
      negb (Char.is_digit c || Ascii.eqb c "-") || is_float_token r
  end.

Definition not_subscriptable (type_name : string) : PyExc :=
  TypeError ("'" ++ type_name ++ "' object is not subscriptable").

(** [v[key]] for a string key. *)
Definition getitem (v : json) (key : string) : Res json :=
  match v with
  | JObj d =>
      match lookup key d with
      | Some x => inr x
      | None => inl (KeyError key)
      end
  | JArr _ => inl (TypeError "list indices must be integers or slices, not str")
  | JStr _ => inl (TypeError "string indices must be integers, not 'str'")
  | JNum t => inl (not_subscriptable (if is_float_token t then "float" else "int"))
  | JBool _ => inl (not_subscriptable "bool")
  | JNull => inl (not_subscriptable "NoneType")
  end.

End JsonLoads.

(* ===================================================================== *)
(** ** Data model *)
(* ===================================================================== *)

Declare Scope res_scope.
Delimit Scope res_scope with res.
Notation "'let*' x ':=' e 'in' k" := (res_bind e (fun x => k))
  (at level 10, x name, e at level 100, k at level 200) : res_scope.

(** Modelled from the spec: the header metadata type
    (superset.utils.core.HeaderDataType) is opaque to this module; any
    Python value stands for it. *)
Definition HeaderDataType : Type := pyval.

(** Modelled from the spec: the report content handed to the channel
    (NotificationContent of superset.reports.notifications.base), with the
    fields the spec lists for ReportContent: optional error text, optional
    description, URL, optional screenshots, optional CSV bytes, display
    name and optional header metadata. *)
Module NotificationContent.
Record t : Type := {
  name : string;
  header_data : option HeaderDataType;
  csv : option (list byte);
  screenshots : option (list (list byte));
  text : option string;
  description : option string;
  url : string
}.
End NotificationContent.

(** The dataclass [WebhookContent]; [make] is its constructor called with
    [body] alone, the other fields taking their default [None]. *)
Module WebhookContent.
Record t : Type := {
  body : pyval;
  header_data : option HeaderDataType;
  data : option (list (string * pyval));
  images : option (list string)
}.

Definition make (body : pyval) : t :=
  {| body := body; header_data := None; data := None; images := None |}.
End WebhookContent.

(** Modelled from the spec: the recipient row, of which the channel reads
    the JSON configuration text. *)
Record ReportRecipients : Type := {
  recipient_config_json : string
}.

(** The notification object: [self._content] and [self._recipient], set by
    the constructor of the base class. *)
Record WebhookNotification : Type := {
  _content : NotificationContent.t;
  _recipient : ReportRecipients
}.

(** An optional Python value as the value it is. *)
Definition py_opt_dict (o : option (list (string * pyval))) : pyval :=
  match o with
  | Some d => PDict d
  | None => PNone
  end.

Definition py_opt_strs (o : option (list string)) : pyval :=
  match o with
  | Some l => PList (map PStr l)
  | None => PNone
  end.

(* ===================================================================== *)
(** ** Effects: the HTTP request and the log *)
(* ===================================================================== *)

(** A call of [requests.post(url, headers=..., data=..., timeout=...)]. *)
Record Request : Type := {
  req_url : json;
  req_headers : list (string * string);
  req_data : string;
  req_timeout : Z
}.

(** The part of [requests.Response] that is read. *)
Record Response : Type := {
  status_code : Z;
  reason : string;
  resp_url : string
}.

(** A call of [logger.info(fmt, header_data, url, status_code)]. *)
Record LogRecord : Type := {
  log_format : string;
  log_header_data : option HeaderDataType;
  log_url : json;
  log_status : Z
}.

(** What a run leaves behind, oldest first. *)
Record World : Type := {
  posts : list Request;
  logs : list LogRecord
}.

Definition world0 : World := {| posts := []; logs := [] |}.

(** Code that may raise and that acts on the world; what it did before it
    raised stays done. *)
Definition Eff (A : Type) : Type := World -> Res A * World.

Definition ret {A} (a : A) : Eff A := fun w => (inr a, w).

Definition raise {A} (e : PyExc) : Eff A := fun w => (inl e, w).

Definition bind {A B} (m : Eff A) (k : A -> Eff B) : Eff B :=
  fun w =>
    match m w with
    | (inl e, w') => (inl e, w')
    | (inr a, w') => k a w'
    end.

Definition lift {A} (r : Res A) : Eff A := fun w => (r, w).

(** [try: body / except Exception as ex: handler ex] *)
Definition try_except {A} (body : Eff A) (handler : PyExc -> Eff A) : Eff A :=
  fun w =>
    match body w with
    | (inl e, w') => handler e w'
    | (inr a, w') => (inr a, w')
    end.

Declare Scope eff_scope.
Delimit Scope eff_scope with eff.
Notation "x <- e ;; k" := (bind e (fun x => k))
  (at level 100, e at next level, right associativity) : eff_scope.
Notation "e ;; k" := (bind e (fun _ => k))
  (at level 100, right associativity) : eff_scope.

(** [Response.raise_for_status()]: an [HTTPError] for the 4xx and 5xx
    codes, nothing for the others. *)
Definition raise_for_status (r : Response) : Res unit :=
  let code := status_code r in
  let msg (kind : string) :=
    Str.of_Z code ++ " " ++ kind ++ " Error: " ++ reason r ++ " for url: " ++ resp_url r in
  if ((400 <=? code) && (code <? 500))%Z then inl (HTTPError (msg "Client"))
  else if ((500 <=? code) && (code <? 600))%Z then inl (HTTPError (msg "Server"))
  else inr tt.

Definition logger_info (fmt : string) (hd : option HeaderDataType)
           (to : json) (status : Z) : Eff unit :=
  fun w =>
    (inr tt,
     {| posts := posts w;
        logs := logs w ++ [{| log_format := fmt; log_header_data := hd;
                              log_url := to; log_status := status |}]%list |}).

(* ===================================================================== *)
(** ** WebhookNotification *)
(* ===================================================================== *)

Definition error_template : string :=
  String Str.nl (Str.spaces 12 ++
  "Your report/alert was unable to be generated because of the following error: %(text)s"
  ++ String Str.nl (Str.spaces 12 ++
  "Please check your dashboard/chart for errors."
  ++ String Str.nl (Str.spaces 12 ++
  String Str.dquote ("%(url)s" ++ String Str.dquote (String Str.nl (Str.spaces 12)))))).

Definition sent_format : string :=
  "Report sent to webhook, notification content is %s, url:%s, status scode:%d".

Section Webhook.

(** [nh3.clean] with its default settings: the HTML sanitiser, a pure
    function of the text.  Its parser is a library of its own; the
    channel's code is modelled for any such function. *)
Variable nh3_clean : string -> string.

(** The HTTP client and the network behind it: what a call of
    [requests.post] comes back with, a response or an exception. *)
Variable network : Request -> Res Response.

Import NotificationContent.
Local Open Scope res_scope.

Definition requests_post (to : json) (headers : list (string * string))
           (data : string) (timeout : Z) : Eff Response :=
  fun w =>
    let req := {| req_url := to; req_headers := headers;
                  req_data := data; req_timeout := timeout |} in
    (network req, {| posts := (posts w ++ [req])%list; logs := logs w |}).

Definition _error_template (self : WebhookNotification) (text : string) : Res string :=
  __ error_template [("text", text); ("url", url (_content self))].

Definition _get_content (self : WebhookNotification) : Res WebhookContent.t :=
  match text (_content self) with
  | Some (String _ _ as text) =>
      let* body := _error_template self text in
      inr (WebhookContent.make (PStr body))
  | _ =>
      let images :=
        match screenshots (_content self) with
        | Some ((_ :: _) as shots) => map Base64.b64encode_ascii shots
        | _ => []
        end in
      let description := nh3_clean (str_or (description (_content self)) EmptyString) in
      let body := PDict [("description", PStr description);
                         ("url", PStr (url (_content self)))] in
      let* csv_data :=
        match csv (_content self) with
        | Some ((_ :: _) as bytes) =>
            let* filename := __ "%(name)s.csv" [("name", name (_content self))] in
            inr (Some [(filename, PBytes bytes)])
        | _ => inr None
        end in
      inr {| WebhookContent.body := body;
             WebhookContent.images := Some images;
             WebhookContent.data := csv_data;
             WebhookContent.header_data := header_data (_content self) |}
  end.

Definition _get_subject (self : WebhookNotification) : Res string :=
  __ "%(title)s" [("title", name (_content self))].

Definition _get_to (self : WebhookNotification) : Res json :=
  let* config := JsonLoads.loads (recipient_config_json (_recipient self)) in
  JsonLoads.getitem config "target".

(** The [except] clauses of [send], tried in order. *)
Definition send_handler (ex : PyExc) : PyExc :=
  match ex with
  | SupersetErrorsException errors _ =>
      NotificationError (Str.join ";" (map message errors)) ex
  | _ => NotificationError (exc_str ex) ex
  end.

Local Open Scope eff_scope.

(** [send].  The three preparations run before the [try]; the
    serialisation is an argument of [requests.post] and so is evaluated
    inside it, before the call.  The decorator [statsd_gauge] reports the
    outcome to the metrics logger and re-raises what [send] raises; it is
    not part of the model. *)
Definition send (self : WebhookNotification) : Eff unit :=
  subject <- lift (_get_subject self) ;;
  content <- lift (_get_content self) ;;
  to <- lift (_get_to self) ;;
  let payload :=
    PDict [("subject", PStr subject);
           ("content",
            PDict [("body", WebhookContent.body content);
                   ("data", py_opt_dict (WebhookContent.data content));
                   ("images", py_opt_strs (WebhookContent.images content))])] in
  try_except
    (data <- lift (JsonDumps.dumps payload) ;;
     response <- requests_post to [] data 30 ;;
     lift (raise_for_status response) ;;
     logger_info sent_format (WebhookContent.header_data content) to
                 (status_code response))
    (fun ex => raise (send_handler ex)).

End Webhook.

(* ===================================================================== *)
(** ** Vocabulary of the statements *)
(* ===================================================================== *)

(** The dict that [send] serialises, for a subject and a formatted
    content. *)
Definition envelope (subject : string) (content : WebhookContent.t) : pyval :=
  PDict [("subject", PStr subject);
         ("content",
          PDict [("body", WebhookContent.body content);
                 ("data", py_opt_dict (WebhookContent.data content));
                 ("images", py_opt_strs (WebhookContent.images content))])].

(** The call [requests.post(to, headers={}, data=data, timeout=30)]. *)
Definition post_request (to : json) (data : string) : Request :=
  {| req_url := to; req_headers := []; req_data := data; req_timeout := 30 |}.

(** The record [send] logs after a delivery. *)
Definition sent_record (hd : option HeaderDataType) (to : json) (status : Z)
  : LogRecord :=
  {| log_format := sent_format; log_header_data := hd;
     log_url := to; log_status := status |}.

(** The error template with its two variables filled in: the fixed text
    before the error text, between it and the URL, and after the URL. *)
Definition error_head : string :=
  String Str.nl (Str.spaces 12 ++
  "Your report/alert was unable to be generated because of the following error: ").

Definition error_middle : string :=
  String Str.nl (Str.spaces 12 ++
  "Please check your dashboard/chart for errors."
  ++ String Str.nl (Str.spaces 12 ++ String Str.dquote EmptyString)).

Definition error_tail : string :=
  String Str.dquote (String Str.nl (Str.spaces 12)).

Definition error_body (text url : string) : string :=
  error_head ++ text ++ error_middle ++ url ++ error_tail.

(** A fault of the JSON decoder. *)
Definition decode_fault (e : PyExc) : Prop := exists msg, e = JSONDecodeError msg.

Definition is_notification_error (ex : PyExc) : bool :=
  match ex with
  | NotificationError _ _ => true
  | _ => false
  end.

(** The screenshots of a content, none when the field is absent. *)
Definition screenshots_of (c : NotificationContent.t) : list (list byte) :=
  match NotificationContent.screenshots c with
  | Some shots => shots
  | None => []
  end.

(** The attachment mapping of a content: one entry, the CSV bytes under
    the file name, when there are CSV bytes. *)
Definition csv_data_of (c : NotificationContent.t)
  : option (list (string * pyval)) :=
  match NotificationContent.csv c with
  | Some (b :: bs) => Some [(NotificationContent.name c ++ ".csv", PBytes (b :: bs))]
  | _ => None
  end.

(** What the formatter returns on the normal path, written out. *)
Definition normal_content (clean : string -> string) (c : NotificationContent.t)
  : WebhookContent.t :=
  {| WebhookContent.body :=
       PDict [("description",
               PStr (clean (str_or (NotificationContent.description c) EmptyString)));
              ("url", PStr (NotificationContent.url c))];
     WebhookContent.header_data := NotificationContent.header_data c;
     WebhookContent.data := csv_data_of c;
     WebhookContent.images := Some (map Base64.b64encode_ascii (screenshots_of c)) |}.

(** What [send] does once the destination [to] is known, written out:
    serialise, post, check the status, log; every fault goes through the
    handler. *)
Definition delivery (network : Request -> Res Response)
           (subject : string) (content : WebhookContent.t) (to : json) (w : World)
  : Res unit * World :=
  match JsonDumps.dumps (envelope subject content) with
  | inl e => (inl (send_handler e), w)
  | inr data =>
      let w1 := {| posts := (posts w ++ [post_request to data])%list; logs := logs w |} in
      match network (post_request to data) with
      | inl e => (inl (send_handler e), w1)
      | inr response =>
          match raise_for_status response with
          | inl e => (inl (send_handler e), w1)
          | inr _ =>
              (inr tt,
               {| posts := posts w1;
                  logs := (logs w1 ++ [sent_record (WebhookContent.header_data content)
                                                   to (status_code response)])%list |})
          end
      end
  end.

(** Two contents that agree on every field but the header metadata. *)
Definition same_but_header_data (a b : NotificationContent.t) : Prop :=
  NotificationContent.name a = NotificationContent.name b /\
  NotificationContent.csv a = NotificationContent.csv b /\
  NotificationContent.screenshots a = NotificationContent.screenshots b /\
  NotificationContent.text a = NotificationContent.text b /\
  NotificationContent.description a = NotificationContent.description b /\
  NotificationContent.url a = NotificationContent.url b.

(** The recipient configuration is not JSON. *)
Definition malformed (r : ReportRecipients) : Prop :=
  exists e, JsonLoads.loads (recipient_config_json r) = inl e.

(** The recipient configuration is a JSON object without the key
    [target]. *)
Definition lacks_target (r : ReportRecipients) : Prop :=
  exists members,
    JsonLoads.loads (recipient_config_json r) = inr (JObj members) /\
    JsonLoads.lookup "target" members = None.

(* ===================================================================== *)
(** ** Concrete notifications *)
(* ===================================================================== *)

Module Sample.

(** A stand-in for the sanitiser in concrete runs.  The descriptions below
    are absent or free of markup and of HTML special characters; on such
    text the sanitiser returns its input. *)
Definition plain_clean (s : string) : string := s.

Definition hook : string := "https://example.com/hook".

(** An endpoint that answers every request with the given status. *)
Definition endpoint (code : Z) (why : string) (req : Request) : Res Response :=
  inr {| status_code := code; reason := why; resp_url := hook |}.

Definition A_failed : SupersetError :=
  {| message := "A failed"; error_type := "GENERIC_BACKEND_ERROR"; level := "error" |}.
Definition B_failed : SupersetError :=
  {| message := "B failed"; error_type := "GENERIC_BACKEND_ERROR"; level := "error" |}.

Definition aggregated_fault : PyExc :=
  SupersetErrorsException [A_failed; B_failed] "[A failed, B failed]".

(** A client call that raises the aggregated fault. *)
Definition faulty (req : Request) : Res Response := inl aggregated_fault.

Definition quoted (s : string) : string :=
  String Str.dquote (s ++ String Str.dquote EmptyString).

(** The configuration [{"target": "https://example.com/hook"}]. *)
Definition hook_config : ReportRecipients :=
  {| recipient_config_json := "{" ++ quoted "target" ++ ": " ++ quoted hook ++ "}" |}.

Definition no_target_config : ReportRecipients :=
  {| recipient_config_json := "{}" |}.

Definition malformed_config : ReportRecipients :=
  {| recipient_config_json := "{target" |}.

Definition header : HeaderDataType :=
  PDict [("notification_type", PStr "Report"); ("chart_id", PStr "7")].

(** The bytes of [Man] and of [M]. *)
Definition shots : list (list byte) := [[x4d; x61; x6e]; [x4d]].

(** The bytes of [a,b]. *)
Definition table : list byte := [x61; x2c; x62].

Definition report : NotificationContent.t :=
  {| NotificationContent.name := "Q1 Sales";
     NotificationContent.header_data := Some header;
     NotificationContent.csv := None;
     NotificationContent.screenshots := Some shots;
     NotificationContent.text := None;
     NotificationContent.description := Some "Quarterly sales";
     NotificationContent.url := "https://superset.example.com/chart/7" |}.

Definition report_without_header : NotificationContent.t :=
  {| NotificationContent.name := "Q1 Sales";
     NotificationContent.header_data := None;
     NotificationContent.csv := None;
     NotificationContent.screenshots := Some shots;
     NotificationContent.text := None;
     NotificationContent.description := Some "Quarterly sales";
     NotificationContent.url := "https://superset.example.com/chart/7" |}.

Definition csv_report : NotificationContent.t :=
  {| NotificationContent.name := "Q1 Sales";
     NotificationContent.header_data := Some header;
     NotificationContent.csv := Some table;
     NotificationContent.screenshots := None;
     NotificationContent.text := None;
     NotificationContent.description := None;
     NotificationContent.url := "https://superset.example.com/chart/7" |}.

Definition empty_csv_report : NotificationContent.t :=
  {| NotificationContent.name := "Q1 Sales";
     NotificationContent.header_data := Some header;
     NotificationContent.csv := Some [];
     NotificationContent.screenshots := None;
     NotificationContent.text := None;
     NotificationContent.description := None;
     NotificationContent.url := "https://superset.example.com/chart/7" |}.

(** A failed report, its other fields populated all the same. *)
Definition failed_report : NotificationContent.t :=
  {| NotificationContent.name := "Q1 Sales";
     NotificationContent.header_data := Some header;
     NotificationContent.csv := Some table;
     NotificationContent.screenshots := Some shots;
     NotificationContent.text := Some "Query timed out";
     NotificationContent.description := Some "Quarterly sales";
     NotificationContent.url := "https://superset.example.com/chart/7" |}.

Definition notify (c : NotificationContent.t) (r : ReportRecipients)
  : WebhookNotification :=
  {| _content := c; _recipient := r |}.

Definition report_to_hook : WebhookNotification := notify report hook_config.
Definition failed_report_to_hook : WebhookNotification := notify failed_report hook_config.
Definition csv_report_to_hook : WebhookNotification := notify csv_report hook_config.
Definition empty_csv_report_to_hook : WebhookNotification :=
  notify empty_csv_report hook_config.
Definition report_without_target : WebhookNotification := notify report no_target_config.

(** Endpoints that answer 200 and 500. *)
Definition ok : Request -> Res Response := endpoint 200 "OK".
Definition down : Request -> Res Response := endpoint 500 "Internal Server Error".

(** What [send] raises on the answer of [down]. *)
Definition server_error : PyExc :=
  NotificationError
    "500 Server Error: Internal Server Error for url: https://example.com/hook"
    (HTTPError
       "500 Server Error: Internal Server Error for url: https://example.com/hook").

(** What [send] raises when the CSV bytes reach the serialiser. *)
Definition bytes_error : PyExc :=
  NotificationError "Object of type bytes is not JSON serializable"
    (TypeError "Object of type bytes is not JSON serializable").

(** What [send] raises when the client call raises [aggregated_fault]. *)
Definition aggregated_error : PyExc :=
  NotificationError "A failed;B failed" aggregated_fault.

End Sample.

(* ===================================================================== *)
(** ** Further vocabulary and inputs *)
(* ===================================================================== *)

(** The world after [send] has posted a request. *)
Definition posted (req : Request) (w : World) : World :=
  {| posts := (posts w ++ [req])%list; logs := logs w |}.

(** The world after [send] has posted a request and logged the answer. *)
Definition posted_and_logged (req : Request) (rec : LogRecord) (w : World) : World :=
  {| posts := (posts w ++ [req])%list; logs := (logs w ++ [rec])%list |}.

(** The statuses that [raise_for_status] rejects. *)
Definition is_error_status (code : Z) : bool :=
  ((400 <=? code) && (code <? 600))%Z.

(** The message of the [HTTPError] for a response. *)
Definition http_error_message (kind : string) (r : Response) : string :=
  Str.of_Z (status_code r) ++ " " ++ kind ++ " Error: " ++ reason r
    ++ " for url: " ++ resp_url r.

Definition is_aggregated (ex : PyExc) : bool :=
  match ex with
  | SupersetErrorsException _ _ => true
  | _ => false
  end.

Definition is_object (v : json) : bool :=
  match v with
  | JObj _ => true
  | _ => false
  end.

(** A text between double quotes. *)
Definition in_quotes (s : string) : string :=
  String Str.dquote (s ++ String Str.dquote EmptyString).

(** Whether a text is ASCII. *)
Fixpoint is_ascii (s : string) : bool :=
  match s with
  | EmptyString => true
  | String c r => (Char.code c <? 128)%Z && is_ascii r
  end.

(** The JSON value that a Python value without bytes stands for: what the
    receiver of its serialisation is meant to read. *)
Fixpoint json_of (v : pyval) : json :=
  match v with
  | PNone => JNull
  | PStr s => JStr s
  | PBytes _ => JNull
  | PList items => JArr (map json_of items)
  | PDict entries => JObj (map (fun kv => (fst kv, json_of (snd kv))) entries)
  end.

Fixpoint distinct (keys : list string) : bool :=
  match keys with
  | [] => true
  | k :: rest => negb (existsb (String.eqb k) rest) && distinct rest
  end.

(** A value without bytes, whose strings and keys are ASCII and whose
    dicts have no key twice (as every Python dict has). *)
Fixpoint plain (v : pyval) : bool :=
  match v with
  | PNone => true
  | PStr s => is_ascii s
  | PBytes _ => false
  | PList items => forallb plain items
  | PDict entries =>
      distinct (map fst entries)
      && forallb (fun kv => is_ascii (fst kv) && plain (snd kv)) entries
  end.

(** The text [json.dumps] prints for a value without bytes. *)
Fixpoint render (v : pyval) : string :=
  match v with
  | PNone => "null"
  | PStr s => JsonDumps.encode_str s
  | PBytes _ => EmptyString
  | PList items => "[" ++ Str.join ", " (map render items) ++ "]"
  | PDict entries =>
      "{" ++ Str.join ", "
               (map (fun kv => JsonDumps.encode_str (fst kv) ++ ": " ++ render (snd kv))
                    entries)
          ++ "}"
  end.

Definition member_text (kv : string * pyval) : string :=
  JsonDumps.encode_str (fst kv) ++ ": " ++ render (snd kv).

(** The containers around a value that begins in the state [ps]. *)
Definition under (ps : JsonLoads.pstate) : list JsonLoads.frame :=
  match ps with
  | JsonLoads.ExpectValue st => st
  | JsonLoads.ArrOpen st => JsonLoads.FArr [] :: st
  | _ => []
  end.

(** What scanning the text of a value does: wherever a value may begin,
    the scanner reads the text and hands the value to the container
    around it. *)
Definition scans (v : pyval) : Prop :=
  forall ps tail,
    JsonLoads.wants_value ps = true ->
    JsonLoads.scan JsonLoads.Start ps (render v ++ tail)
    = JsonLoads.scan JsonLoads.Start (JsonLoads.deliver (json_of v) (under ps)) tail.

(** The JSON object that the receiver of a report is meant to read. *)
Definition envelope_json (subject : string) (content : WebhookContent.t) : json :=
  JObj [("subject", JStr subject);
        ("content",
         JObj [("body", json_of (WebhookContent.body content));
               ("data", JNull);
               ("images", json_of (py_opt_strs (WebhookContent.images content)))])].

Module More.

(** The configuration [[]]: JSON, but no object. *)
Definition list_config : ReportRecipients :=
  {| recipient_config_json := "[]" |}.

(** The configuration [{"target": 5}]: the target is no string. *)
Definition number_target_config : ReportRecipients :=
  {| recipient_config_json := "{" ++ Sample.quoted "target" ++ ": 5}" |}.

Definition report_to_list : WebhookNotification :=
  Sample.notify Sample.report list_config.

Definition report_to_number : WebhookNotification :=
  Sample.notify Sample.report number_target_config.

(** A client that cannot connect. *)
Definition refused_fault : PyExc := RequestException "Connection refused".
Definition refused (req : Request) : Res Response := inl refused_fault.

(** An endpoint that answers 304. *)
Definition unchanged : Request -> Res Response :=
  Sample.endpoint 304 "Not Modified".

Definition unchanged_response : Response :=
  {| status_code := 304; reason := "Not Modified"; resp_url := Sample.hook |}.

(** A failed report with nothing else in it, under the same name and URL
    as [Sample.failed_report]. *)
Definition bare_failed_report : NotificationContent.t :=
  {| NotificationContent.name := "Q1 Sales";
     NotificationContent.header_data := None;
     NotificationContent.csv := None;
     NotificationContent.screenshots := None;
     NotificationContent.text := Some "Query timed out";
     NotificationContent.description := None;
     NotificationContent.url := "https://superset.example.com/chart/7" |}.

(** A sanitiser that answers nothing, to tell whether it was asked. *)
Definition blank_clean (s : string) : string := EmptyString.

(** The sample report, formatted and serialised. *)
Definition report_formatted : WebhookContent.t :=
  normal_content Sample.plain_clean Sample.report.

Definition report_text : string :=
  match JsonDumps.dumps (envelope "Q1 Sales" report_formatted) with
  | inr data => data
  | inl _ => EmptyString
  end.

Definition report_request : Request := post_request (JStr Sample.hook) report_text.

(** A failed report whose name is [Caf] followed by the letter e with an
    acute accent (U+00E9). *)
Definition cafe : string := "Caf" ++ Char.utf8 233.

Definition cafe_report : NotificationContent.t :=
  {| NotificationContent.name := cafe;
     NotificationContent.header_data := None;
     NotificationContent.csv := None;
     NotificationContent.screenshots := None;
     NotificationContent.text := Some "Query timed out";
     NotificationContent.description := None;
     NotificationContent.url := "https://superset.example.com/chart/7" |}.

Definition cafe_to_hook : WebhookNotification :=
  Sample.notify cafe_report Sample.hook_config.

Definition cafe_text : string :=
  match JsonDumps.dumps
          (envelope cafe
             (WebhookContent.make
                (PStr (error_body "Query timed out"
                                  "https://superset.example.com/chart/7")))) with
  | inr data => data
  | inl _ => EmptyString
  end.

Definition cafe_request : Request := post_request (JStr Sample.hook) cafe_text.

End More.

(* ===================================================================== *)
(** * Properties *)
(* ===================================================================== *)

(** ** Strings *)

Lemma append_empty_r (s : string) : s ++ EmptyString = s.
Proof. induction s as [| c s IH]; simpl; [reflexivity | now rewrite IH]. Qed.

Lemma append_assoc (a b c : string) : (a ++ b) ++ c = a ++ (b ++ c).
Proof. induction a as [| x a IH]; simpl; [reflexivity | now rewrite IH]. Qed.

Lemma contains_intro (pre needle post hay : string) :
  hay = pre ++ needle ++ post -> Str.contains needle hay.
Proof. intros H. exists pre, post. exact H. Qed.

(** ** gettext on the templates of the module *)

Lemma gettext_title (title : string) :
  __ "%(title)s" [("title", title)] = inr title.
Proof. cbn. now rewrite append_empty_r. Qed.

Lemma gettext_csv_name (name : string) :
  __ "%(name)s.csv" [("name", name)] = inr (name ++ ".csv").
Proof. reflexivity. Qed.

Lemma gettext_error_template (text url : string) :
  __ error_template [("text", text); ("url", url)] = inr (error_body text url).
Proof. reflexivity. Qed.

Lemma error_body_contains_text (text url : string) :
  Str.contains text (error_body text url).
Proof.
  apply (contains_intro error_head text (error_middle ++ url ++ error_tail)).
  reflexivity.
Qed.

Lemma error_body_contains_url (text url : string) :
  Str.contains url (error_body text url).
Proof.
  apply (contains_intro (error_head ++ text ++ error_middle) url error_tail).
  unfold error_body. now rewrite !append_assoc.
Qed.

(** ** base64 *)

Section Base64Facts.
Import Base64.
Local Open Scope Z_scope.

Lemma forall_below (P : Z -> bool) (n : nat) :
  forallb P (map Z.of_nat (seq 0 n)) = true ->
  forall i, 0 <= i < Z.of_nat n -> P i = true.
Proof.
  intros H i Hi. rewrite forallb_forall in H. apply H.
  apply in_map_iff. exists (Z.to_nat i). split; [lia|].
  apply in_seq. lia.
Qed.

Lemma table_a2b_b2a i : 0 <= i < 64 -> table_a2b (table_b2a i) = Some i.
Proof.
  intros Hi.
  pose (P := fun i => match table_a2b (table_b2a i) with
                      | Some j => Z.eqb j i | None => false end).
  assert (HP : P i = true) by (apply (forall_below P 64); [vm_compute; reflexivity | lia]).
  unfold P in HP. destruct (table_a2b (table_b2a i)); [|discriminate].
  apply Z.eqb_eq in HP. congruence.
Qed.

Lemma table_b2a_not_pad i : 0 <= i < 64 -> Ascii.eqb (table_b2a i) pad = false.
Proof.
  intros Hi.
  apply (forall_below (fun i => negb (Ascii.eqb (table_b2a i) pad)) 64) in Hi.
  - now apply negb_true_iff.
  - vm_compute; reflexivity.
Qed.

Lemma u8_range b : 0 <= u8 b < 256.
Proof. unfold u8. pose proof (Byte.to_N_bounded b). lia. Qed.

Lemma land_shiftl_low hi lo k :
  0 <= k -> 0 <= lo < 2 ^ k -> Z.land (Z.shiftl hi k) lo = 0.
Proof.
  intros Hk Hlo. apply Z.bits_inj'. intros i Hi.
  rewrite Z.land_spec, Z.bits_0, Z.shiftl_spec by lia.
  destruct (Z.ltb_spec i k).
  - rewrite (Z.testbit_neg_r hi) by lia. reflexivity.
  - destruct (Z.eq_dec lo 0) as [->|Hne].
    + rewrite Z.bits_0. apply andb_false_r.
    + rewrite (Z.bits_above_log2 lo i); [apply andb_false_r | lia |].
      apply Z.log2_lt_pow2; try lia.
      apply Z.lt_le_trans with (2 ^ k); try lia.
      apply Z.pow_le_mono_r; lia.
Qed.

Lemma lor_shiftl_add hi lo k :
  0 <= k -> 0 <= lo < 2 ^ k -> Z.lor (Z.shiftl hi k) lo = hi * 2 ^ k + lo.
Proof.
  intros Hk Hlo.
  pose proof (Z.add_lor_land (Z.shiftl hi k) lo) as H.
  rewrite land_shiftl_low in H by assumption.
  rewrite Z.shiftl_mul_pow2 in * by lia. lia.
Qed.

Lemma group_eq a b c :
  0 <= a < 256 -> 0 <= b < 256 -> 0 <= c < 256 ->
  group a b c = (a * 256 + b) * 256 + c.
Proof.
  intros Ha Hb Hc. unfold group.
  rewrite (lor_shiftl_add a b 8) by lia.
  rewrite lor_shiftl_add by lia. lia.
Qed.

Lemma ungroup_eq i0 i1 i2 i3 :
  0 <= i0 < 64 -> 0 <= i1 < 64 -> 0 <= i2 < 64 -> 0 <= i3 < 64 ->
  ungroup i0 i1 i2 i3 = ((i0 * 64 + i1) * 64 + i2) * 64 + i3.
Proof.
  intros H0 H1 H2 H3. unfold ungroup.
  rewrite (lor_shiftl_add i0 i1 6) by lia.
  rewrite (lor_shiftl_add _ i2 6) by lia.
  rewrite lor_shiftl_add by lia. lia.
Qed.

Lemma six_bits n k : 0 <= k -> Z.land (Z.shiftr n k) 63 = (n / 2 ^ k) mod 64.
Proof.
  intros Hk. rewrite Z.shiftr_div_pow2 by lia.
  change 63 with (Z.ones 6). rewrite Z.land_ones by lia. reflexivity.
Qed.

Lemma eight_bits n k : 0 <= k -> Z.land (Z.shiftr n k) 255 = (n / 2 ^ k) mod 256.
Proof.
  intros Hk. rewrite Z.shiftr_div_pow2 by lia.
  change 255 with (Z.ones 8). rewrite Z.land_ones by lia. reflexivity.
Qed.

Lemma six_bits_range n k : 0 <= k -> 0 <= Z.land (Z.shiftr n k) 63 < 64.
Proof. intros Hk. rewrite six_bits by lia. apply Z.mod_pos_bound. lia. Qed.

Lemma octet_u8 n k b :
  0 <= k -> (n / 2 ^ k) mod 256 = u8 b -> octet n k = Some b.
Proof.
  intros Hk H. unfold octet. rewrite eight_bits, H by lia.
  unfold u8. rewrite N2Z.id. apply Byte.of_to_N.
Qed.

(** Splitting a group into sextets and joining them gives it back. *)
Lemma ungroup_sextets n :
  0 <= n < 2 ^ 24 ->
  ungroup (Z.land (Z.shiftr n 18) 63) (Z.land (Z.shiftr n 12) 63)
          (Z.land (Z.shiftr n 6) 63) (Z.land (Z.shiftr n 0) 63) = n.
Proof.
  intros Hn.
  rewrite ungroup_eq by (apply six_bits_range; lia).
  rewrite !six_bits by lia.
  change (2 ^ 18) with 262144. change (2 ^ 12) with 4096.
  change (2 ^ 6) with 64. change (2 ^ 0) with 1. change (2 ^ 24) with 16777216 in Hn.
  Z.div_mod_to_equations. lia.
Qed.


Lemma list_ind3 {A} (P : list A -> Prop) :
  P [] -> (forall a, P [a]) -> (forall a b, P [a; b]) ->
  (forall a b c l, P l -> P (a :: b :: c :: l)) ->
  forall l, P l.
Proof.
  intros H0 H1 H2 H3.
  fix IH 1. intros [|a [|b [|c l]]];
    [apply H0 | apply H1 | apply H2 | apply H3; apply IH].
Qed.

Ltac pow2 :=
  change (2 ^ 18) with 262144 in *; change (2 ^ 16) with 65536 in *;
  change (2 ^ 12) with 4096 in *; change (2 ^ 8) with 256 in *;
  change (2 ^ 6) with 64 in *; change (2 ^ 0) with 1 in *.

(** The decoder's view of the group the encoder printed. *)
Lemma decode_group a b c k :
  0 <= a < 256 -> 0 <= b < 256 -> 0 <= c < 256 ->
  let n := group a b c in
  forall i2 i3,
    (i2 = Z.land (Z.shiftr n 6) 63 \/ i2 = 0 /\ b = 0 /\ c = 0) ->
    (i3 = Z.land (Z.shiftr n 0) 63 \/ i3 = 0 /\ c = 0) ->
    (k = 16 \/ k = 8 \/ k = 0) ->
    (ungroup (Z.land (Z.shiftr n 18) 63) (Z.land (Z.shiftr n 12) 63) i2 i3 / 2 ^ k)
      mod 256 = (n / 2 ^ k) mod 256.
Proof.
  intros Ha Hb Hc n i2 i3 H2 H3 Hk.
  assert (Hn : n = (a * 256 + b) * 256 + c) by (apply group_eq; assumption).
  clearbody n.
  assert (R2 : 0 <= i2 < 64).
  { destruct H2 as [-> | [-> _]]; [apply six_bits_range|]; lia. }
  assert (R3 : 0 <= i3 < 64).
  { destruct H3 as [-> | [-> _]]; [apply six_bits_range|]; lia. }
  rewrite ungroup_eq by (try apply six_bits_range; lia).
  subst n.
  destruct H2 as [E2 | (E2 & Eb & Ec)]; destruct H3 as [E3 | (E3 & Ec')];
    subst i2 i3; rewrite !six_bits by lia;
    destruct Hk as [-> | [-> | ->]]; pow2;
    Z.div_mod_to_equations; lia.
Qed.

Lemma group_octets a b c :
  0 <= a < 256 -> 0 <= b < 256 -> 0 <= c < 256 ->
  (group a b c / 2 ^ 16) mod 256 = a /\
  (group a b c / 2 ^ 8) mod 256 = b /\
  (group a b c / 2 ^ 0) mod 256 = c.
Proof.
  intros Ha Hb Hc. rewrite group_eq by assumption. pow2.
  repeat split; Z.div_mod_to_equations; lia.
Qed.

Lemma a2b_sextet n k : 0 <= k ->
  table_a2b (sextet n k) = Some (Z.land (Z.shiftr n k) 63).
Proof. intros Hk. apply table_a2b_b2a, six_bits_range, Hk. Qed.

Lemma sextet_not_pad n k : 0 <= k -> Ascii.eqb (sextet n k) pad = false.
Proof. intros Hk. apply table_b2a_not_pad, six_bits_range, Hk. Qed.

(** Decoding what the encoder printed gives the bytes back: the output is
    valid base64 of the input. *)
Lemma a2b_b2a (data : list byte) : a2b (b2a data) = Some data.
Proof.
  induction data as [| a | a b | a b c rest IH] using list_ind3.
  - reflexivity.
  - pose proof (u8_range a) as Ha.
    destruct (group_octets (u8 a) 0 0) as (E16 & _ & _); try lia.
    cbn [b2a a2b]. cbv zeta.
    rewrite !a2b_sextet by lia.
    change (Ascii.eqb pad pad) with true. cbv iota.
    rewrite (octet_u8 _ 16 a); [reflexivity | lia |].
    rewrite decode_group; auto; lia.
  - pose proof (u8_range a) as Ha. pose proof (u8_range b) as Hb.
    destruct (group_octets (u8 a) (u8 b) 0) as (E16 & E8 & _); try lia.
    cbn [b2a a2b]. cbv zeta.
    rewrite !a2b_sextet by lia.
    change (Ascii.eqb pad pad) with true. cbv iota.
    rewrite sextet_not_pad by lia.
    rewrite (octet_u8 _ 16 a), (octet_u8 _ 8 b); [reflexivity | lia | | lia |].
    all: rewrite decode_group; auto; lia.
  - pose proof (u8_range a) as Ha. pose proof (u8_range b) as Hb.
    pose proof (u8_range c) as Hc.
    destruct (group_octets (u8 a) (u8 b) (u8 c)) as (E16 & E8 & E0); try lia.
    cbn [b2a a2b]. cbv zeta.
    rewrite !a2b_sextet by lia.
    rewrite sextet_not_pad by lia.
    rewrite (octet_u8 _ 16 a), (octet_u8 _ 8 b), (octet_u8 _ 0 c), IH;
      [reflexivity | lia | | lia | | lia |].
    all: rewrite decode_group; auto; lia.
Qed.
End Base64Facts.

Example b64encode_Man :
  map Base64.b64encode_ascii [[x4d; x61; x6e]; [x4d; x61]; [x4d]; []]
  = ["TWFu"; "TWE="; "TQ=="; EmptyString].
Proof. reflexivity. Qed.

(** ** json.loads and json.dumps *)

Section JsonFacts.
Import JsonLoads.

Ltac fault :=
  match goal with
  | |- inl _ = inl _ -> decode_fault _ =>
      let H := fresh in intros H; injection H as <-; eexists; reflexivity
  | |- inr _ = inl _ -> _ => discriminate
  | |- err _ = inl _ -> decode_fault _ =>
      let H := fresh in intros H; injection H as <-; eexists; reflexivity
  end.

Lemma step_fault ps t e : step ps t = inl e -> decode_fault e.
Proof.
  unfold step.
  destruct ps; destruct t as [tv | | | | | |]; try fault; destruct tv; fault.
Qed.

Lemma res_map_fault {A B} (f : A -> B) (r : Res A) e :
  (forall e', r = inl e' -> decode_fault e') ->
  res_map f r = inl e -> decode_fault e.
Proof.
  intros Hr. destruct r as [e' | a]; cbn; [| discriminate].
  intros H. injection H as <-. now apply Hr.
Qed.

Lemma number_fault st read ps c rest e :
  number st read ps c rest = inl e -> decode_fault e.
Proof.
  unfold number. destruct (num_step st c); [| fault].
  destruct (num_continues _ rest); [discriminate |].
  destruct (num_accepting _); [| fault].
  apply res_map_fault. intros e'. apply step_fault.
Qed.

Lemma unescape_fault after e : unescape after = inl e -> decode_fault e.
Proof.
  unfold unescape.
  repeat match goal with
         | |- inr _ = inl _ -> _ => discriminate
         | |- err _ = inl _ -> _ => fault
         | |- context [match ?x with _ => _ end] => destruct x
         end.
Qed.

Lemma advance_fault m ps c rest e :
  advance m ps c rest = inl e -> decode_fault e.
Proof.
  unfold advance. destruct m as [| read | st read | n next].
  - destruct (is_ws c); [discriminate |].
    destruct (punct c).
    + apply res_map_fault. intros e'. apply step_fault.
    + destruct (Ascii.eqb c Str.dquote).
      * destruct (wants_string ps); [discriminate | fault].
      * destruct (negb (wants_value ps)); [fault |].
        destruct (literal (String c rest)) as [[v n] |].
        -- apply res_map_fault. intros e'. apply step_fault.
        -- apply number_fault.
  - destruct (Ascii.eqb c Str.dquote).
    + apply res_map_fault. intros e'. apply step_fault.
    + destruct (Char.code c <? 32)%Z; [fault |].
      destruct (Ascii.eqb c Str.backslash); [| discriminate].
      apply res_map_fault. intros e'. apply unescape_fault.
  - apply number_fault.
  - discriminate.
Qed.

Lemma scan_fault s : forall m ps e, scan m ps s = inl e -> decode_fault e.
Proof.
  induction s as [| c rest IH]; intros m ps e; cbn [scan].
  - unfold finish. destruct m; try fault. destruct ps; fault.
  - destruct (advance m ps c rest) as [e' | [m' ps']] eqn:Hadv.
    + intros H. injection H as <-. eapply advance_fault, Hadv.
    + apply IH.
Qed.

(** Whatever [json.loads] raises is a [JSONDecodeError]. *)
Lemma loads_fault s e : loads s = inl e -> decode_fault e.
Proof. apply scan_fault. Qed.

(** Whatever the subscript raises is a [KeyError] or a [TypeError]. *)
Lemma getitem_fault v key e :
  getitem v key = inl e -> e = KeyError key \/ exists msg, e = TypeError msg.
Proof.
  unfold getitem, not_subscriptable.
  destruct v; try (intros H; injection H as <-; right; eexists; reflexivity).
  destruct (lookup key members); [discriminate |].
  intros H. injection H as <-. now left.
Qed.

(** A list of strings always serialises. *)
Lemma dumps_strs (l : list string) :
  JsonDumps.dumps (PList (map PStr l))
  = inr ("[" ++ Str.join ", " (map JsonDumps.encode_str l) ++ "]").
Proof.
  cbn [JsonDumps.dumps]. unfold res_map at 1.
  match goal with
  | |- res_bind ?x _ = _ => assert (E : x = inr (map JsonDumps.encode_str l))
  end.
  { induction l as [| a l IH]; [reflexivity |].
    cbn [map]. cbn [JsonDumps.dumps res_bind]. rewrite IH. reflexivity. }
  rewrite E. reflexivity.
Qed.

End JsonFacts.

(** ** The formatter *)

Section WebhookFacts.

Variable nh3_clean : string -> string.
Variable network : Request -> Res Response.

Import NotificationContent.

Lemma get_subject_is_name self : _get_subject self = inr (name (_content self)).
Proof. apply gettext_title. Qed.

Lemma truthy_str_spec (o : option string) :
  truthy_str o = true <-> exists t, o = Some t /\ t <> EmptyString.
Proof.
  destruct o as [[| c t] |]; cbn; split; try discriminate; try reflexivity.
  - intros (t & [= <-] & H). now destruct H.
  - intros _. eexists. split; [reflexivity | discriminate].
  - intros (t & [=] & _).
Qed.

(** The error path: the body is the filled-in template, the other fields
    keep the defaults of the dataclass. *)
Lemma get_content_error self t :
  text (_content self) = Some t -> t <> EmptyString ->
  _get_content nh3_clean self
  = inr (WebhookContent.make (PStr (error_body t (url (_content self))))).
Proof.
  intros Ht Hne. unfold _get_content. rewrite Ht.
  destruct t as [| c t]; [now destruct Hne |].
  unfold _error_template. now rewrite gettext_error_template.
Qed.

(** The normal path. *)
Lemma get_content_normal self :
  truthy_str (text (_content self)) = false ->
  _get_content nh3_clean self = inr (normal_content nh3_clean (_content self)).
Proof.
  intros Hf. unfold _get_content, normal_content, csv_data_of, screenshots_of.
  destruct (text (_content self)) as [[| c t] |]; try discriminate;
    destruct (screenshots (_content self)) as [[| shot shots] |];
    destruct (csv (_content self)) as [[| b bs] |]; reflexivity.
Qed.

(** Formatting never raises. *)
Lemma get_content_total self : exists content, _get_content nh3_clean self = inr content.
Proof.
  destruct (truthy_str (text (_content self))) eqn:Ht.
  - apply truthy_str_spec in Ht as (t & Ht & Hne).
    eexists. exact (get_content_error self t Ht Hne).
  - eexists. now apply get_content_normal.
Qed.

(** ** The dispatcher *)

(** [send] raises what [_get_to] raises and otherwise delivers. *)
Lemma send_run self w content :
  _get_content nh3_clean self = inr content ->
  send nh3_clean network self w =
    match _get_to self with
    | inl e => (inl e, w)
    | inr to => delivery network (name (_content self)) content to w
    end.
Proof.
  intros Hc. unfold send, bind, lift. rewrite get_subject_is_name, Hc.
  destruct (_get_to self) as [e | to]; [reflexivity |].
  unfold delivery, try_except, bind, lift, raise, requests_post, logger_info.
  fold (envelope (name (_content self)) content).
  destruct (JsonDumps.dumps _) as [e | data]; [reflexivity |].
  fold (post_request to data).
  destruct (network _) as [e | response]; [reflexivity |].
  destruct (raise_for_status response) as [e | []]; reflexivity.
Qed.

Lemma send_handler_is_notification_error ex :
  is_notification_error (send_handler ex) = true.
Proof. now destruct ex. Qed.

(** ** The claims about the formatter *)

(** C3.  When the error text of the content is non-empty, the formatted
    body is the error template with the error text and the content's URL
    filled in, so it contains both, and the payload has neither images nor
    data, whatever the screenshots, the CSV and the description are. *)
Theorem error_text_payload self t :
  text (_content self) = Some t -> t <> EmptyString ->
  exists content,
    _get_content nh3_clean self = inr content /\
    _error_template self t = inr (error_body t (url (_content self))) /\
    WebhookContent.body content = PStr (error_body t (url (_content self))) /\
    Str.contains t (error_body t (url (_content self))) /\
    Str.contains (url (_content self)) (error_body t (url (_content self))) /\
    WebhookContent.images content = None /\
    WebhookContent.data content = None.
Proof.
  intros Ht Hne. eexists. split; [exact (get_content_error self t Ht Hne) |].
  split; [apply gettext_error_template |].
  split; [reflexivity |].
  split; [apply error_body_contains_text |].
  split; [apply error_body_contains_url |].
  split; reflexivity.
Qed.

(** C4.  On the normal path the images are the screenshots, one for one
    and in order: as many images as screenshots, the image at each place
    the base64 text of the screenshot at that place (a text that decodes
    back to the screenshot's bytes), and no image when the screenshots are
    absent or empty. *)
Theorem images_encode_screenshots self :
  truthy_str (text (_content self)) = false ->
  exists content imgs,
    _get_content nh3_clean self = inr content /\
    WebhookContent.images content = Some imgs /\
    length imgs = length (screenshots_of (_content self)) /\
    (forall i shot,
        nth_error (screenshots_of (_content self)) i = Some shot ->
        nth_error imgs i = Some (Base64.b64encode_ascii shot) /\
        Base64.a2b (Base64.b64encode_ascii shot) = Some shot) /\
    (truthy_list (screenshots (_content self)) = false -> imgs = []).
Proof.
  intros Hf. eexists. eexists.
  split; [exact (get_content_normal self Hf) |].
  split; [reflexivity |].
  split; [apply length_map |].
  split.
  - intros i shot Hi. split.
    + now apply map_nth_error.
    + apply a2b_b2a.
  - unfold screenshots_of.
    destruct (screenshots (_content self)) as [[| shot shots] |];
      [reflexivity | discriminate | reflexivity].
Qed.

(** C7, as the code has it.  On the normal path the data field is the
    one-entry mapping from the file name [<name>.csv] to the CSV bytes when
    the content has CSV bytes and they are not empty, and it is absent when
    the CSV is absent or empty. *)
Theorem csv_data_single_entry self :
  truthy_str (text (_content self)) = false ->
  exists content,
    _get_content nh3_clean self = inr content /\
    (forall bytes,
        csv (_content self) = Some bytes -> bytes <> [] ->
        WebhookContent.data content
        = Some [(name (_content self) ++ ".csv", PBytes bytes)]) /\
    (truthy_bytes (csv (_content self)) = false ->
     WebhookContent.data content = None).
Proof.
  intros Hf. eexists. split; [exact (get_content_normal self Hf) |].
  cbn [normal_content WebhookContent.data]. unfold csv_data_of. split.
  - intros bytes -> Hne. destruct bytes; [now destruct Hne | reflexivity].
  - destruct (csv (_content self)) as [[| b bs] |];
      [reflexivity | discriminate | reflexivity].
Qed.

(** What the formatter does with the description: it hands the
    description, or the empty string when there is none, to the sanitiser
    and puts the answer in the body.  What the sanitiser removes is the
    sanitiser's business. *)
Lemma description_is_sanitised self :
  truthy_str (text (_content self)) = false ->
  exists content,
    _get_content nh3_clean self = inr content /\
    WebhookContent.body content
    = PDict [("description",
              PStr (nh3_clean (str_or (description (_content self)) EmptyString)));
             ("url", PStr (url (_content self)))].
Proof.
  intros Hf. eexists. split; [exact (get_content_normal self Hf) | reflexivity].
Qed.

Lemma absent_description_sanitises_empty self :
  truthy_str (text (_content self)) = false ->
  description (_content self) = None ->
  exists content,
    _get_content nh3_clean self = inr content /\
    WebhookContent.body content
    = PDict [("description", PStr (nh3_clean EmptyString));
             ("url", PStr (url (_content self)))].
Proof.
  intros Hf Hd. destruct (description_is_sanitised self Hf) as (content & Hc & Hb).
  exists content. split; [exact Hc |]. now rewrite Hb, Hd.
Qed.

(** ** The claims about the dispatcher *)

(** What [_get_to] raises is a fault of the decoder or of the subscript,
    never a [NotificationError]. *)
Lemma get_to_fault self e :
  _get_to self = inl e -> is_notification_error e = false.
Proof.
  unfold _get_to.
  destruct (JsonLoads.loads _) as [e' | config] eqn:Hl; cbn [res_bind].
  - intros [= <-]. now destruct (loads_fault _ _ Hl) as (msg & ->).
  - intros Hg. destruct (getitem_fault _ _ _ Hg) as [-> | (msg & ->)]; reflexivity.
Qed.

Lemma get_to_malformed self :
  malformed (_recipient self) -> exists e, _get_to self = inl e.
Proof. intros (e & He). exists e. unfold _get_to. now rewrite He. Qed.

Lemma get_to_lacks_target self :
  lacks_target (_recipient self) -> _get_to self = inl (KeyError "target").
Proof.
  intros (members & Hl & Hk). unfold _get_to. rewrite Hl. cbn. now rewrite Hk.
Qed.

(** Every fault of the delivery step comes out of the handler. *)
Lemma delivery_fault subject content to w e w' :
  delivery network subject content to w = (inl e, w') ->
  exists cause, e = send_handler cause.
Proof.
  unfold delivery.
  destruct (JsonDumps.dumps _) as [e1 | data]; [intros [= <- _]; now eexists |].
  destruct (network _) as [e2 | response]; [intros [= <- _]; now eexists |].
  destruct (raise_for_status response) as [e3 | []]; [intros [= <- _]; now eexists |].
  discriminate.
Qed.

(** C1, as the code has it.  When [send] fails at the client call or on
    the response (the client raises the aggregated-errors fault or a
    transport fault, or the response is an HTTP error), the fault is one of
    these and the caller gets a [NotificationError] raised from it, with a
    message decided by the fault: the messages of its errors joined with
    semicolons when it is the aggregated fault, the text of the fault
    otherwise.  When the recipient configuration does not resolve, the
    caller gets the exception of [_get_to] as it is, which is no
    [NotificationError], and nothing else has happened. *)
Theorem send_failure_kinds self w e w' :
  send nh3_clean network self w = (inl e, w') ->
  match _get_to self with
  | inl e0 => e = e0 /\ w' = w /\ is_notification_error e = false
  | inr to =>
      forall content data,
        _get_content nh3_clean self = inr content ->
        JsonDumps.dumps (envelope (name (_content self)) content) = inr data ->
        exists cause,
          (network (post_request to data) = inl cause \/
           exists response,
             network (post_request to data) = inr response /\
             raise_for_status response = inl cause) /\
          e = NotificationError
                match cause with
                | SupersetErrorsException errors _ =>
                    Str.join ";" (map message errors)
                | _ => exc_str cause
                end
                cause
  end.
Proof.
  destruct (_get_to self) as [e0 | to] eqn:Hto.
  - destruct (get_content_total self) as (content & Hc).
    rewrite (send_run self w _ Hc), Hto.
    intros [= <- <-]. repeat split. exact (get_to_fault self _ Hto).
  - intros Hs content data Hc Hd. revert Hs.
    rewrite (send_run self w _ Hc), Hto. unfold delivery. rewrite Hd.
    destruct (network (post_request to data)) as [cause | response].
    + intros [= <- _]. exists cause. split; [now left |].
      destruct cause; reflexivity.
    + destruct (raise_for_status response) as [cause | []] eqn:Hr; [| discriminate].
      intros [= <- _]. exists cause. split; [right; now exists response |].
      destruct cause; reflexivity.
Qed.

(** C5.  When the client call raises the aggregated-errors fault, [send]
    raises a [NotificationError] whose message is the messages of the
    fault's errors, in their order, joined with semicolons. *)
Theorem aggregated_errors_are_joined self w to content data errors txt :
  _get_to self = inr to ->
  _get_content nh3_clean self = inr content ->
  JsonDumps.dumps (envelope (name (_content self)) content) = inr data ->
  network (post_request to data) = inl (SupersetErrorsException errors txt) ->
  fst (send nh3_clean network self w)
  = inl (NotificationError (Str.join ";" (map message errors))
                           (SupersetErrorsException errors txt)).
Proof.
  intros Hto Hc Hd Hn.
  rewrite (send_run self w _ Hc), Hto. unfold delivery. now rewrite Hd, Hn.
Qed.

(** [send] raises what [_get_to] raises, and has done nothing by then. *)
Lemma send_raises_what_get_to_raises self w e :
  _get_to self = inl e -> send nh3_clean network self w = (inl e, w).
Proof.
  intros Hto. destruct (get_content_total self) as (content & Hc).
  now rewrite (send_run self w _ Hc), Hto.
Qed.

(** C6.  When the recipient configuration is malformed JSON or a JSON
    object without the key [target], [send] raises, and the world is as it
    was: no request has been posted. *)
Theorem no_request_without_destination self w :
  malformed (_recipient self) \/ lacks_target (_recipient self) ->
  exists e,
    send nh3_clean network self w = (inl e, w) /\
    posts (snd (send nh3_clean network self w)) = posts w.
Proof.
  intros H.
  assert (Hto : exists e, _get_to self = inl e).
  { destruct H as [H | H]; [now apply get_to_malformed |].
    eexists. now apply get_to_lacks_target. }
  destruct Hto as (e & Hto). exists e.
  rewrite (send_raises_what_get_to_raises self w e Hto). split; reflexivity.
Qed.

(** The envelope depends on the body, the data and the images of the
    content, not on its header metadata. *)
Lemma envelope_ignores_header_data subject c c' :
  WebhookContent.body c = WebhookContent.body c' ->
  WebhookContent.data c = WebhookContent.data c' ->
  WebhookContent.images c = WebhookContent.images c' ->
  envelope subject c = envelope subject c'.
Proof. unfold envelope. now intros -> -> ->. Qed.

(** The requests and the outcome of the delivery step do not depend on the
    header metadata either. *)
Lemma delivery_ignores_header_data subject c c' to w :
  envelope subject c = envelope subject c' ->
  posts (snd (delivery network subject c to w))
  = posts (snd (delivery network subject c' to w)) /\
  fst (delivery network subject c to w) = fst (delivery network subject c' to w).
Proof.
  intros He. unfold delivery. rewrite He.
  destruct (JsonDumps.dumps _) as [e | data]; [now split |].
  destruct (network _) as [e | response]; [now split |].
  destruct (raise_for_status response) as [e | []]; now split.
Qed.

(** C8.  Two contents that differ in their header metadata only make
    [send] post the same requests, with the same serialised body, and come
    to the same outcome: the header metadata is not on the wire. *)
Theorem header_data_stays_off_the_wire a b r w :
  same_but_header_data a b ->
  posts (snd (send nh3_clean network {| _content := a; _recipient := r |} w))
  = posts (snd (send nh3_clean network {| _content := b; _recipient := r |} w)) /\
  fst (send nh3_clean network {| _content := a; _recipient := r |} w)
  = fst (send nh3_clean network {| _content := b; _recipient := r |} w).
Proof.
  intros (Hname & Hcsv & Hshots & Htext & Hdesc & Hurl).
  set (sa := {| _content := a; _recipient := r |}).
  set (sb := {| _content := b; _recipient := r |}).
  assert (Hto : _get_to sa = _get_to sb) by reflexivity.
  assert (Hc : exists ca cb,
             _get_content nh3_clean sa = inr ca /\
             _get_content nh3_clean sb = inr cb /\
             envelope (name a) ca = envelope (name a) cb).
  { destruct (truthy_str (text a)) eqn:Ht.
    - apply truthy_str_spec in Ht as (t & Ht & Hne).
      do 2 eexists. split; [exact (get_content_error sa t Ht Hne) |].
      split; [apply (get_content_error sb t); [cbn; congruence | exact Hne] |].
      cbn [_content sa sb]. now rewrite Hurl.
    - do 2 eexists. split; [exact (get_content_normal sa Ht) |].
      split; [apply (get_content_normal sb); cbn; congruence |].
      apply envelope_ignores_header_data; cbn [normal_content _content sa sb
        WebhookContent.body WebhookContent.data WebhookContent.images].
      + now rewrite Hdesc, Hurl.
      + unfold csv_data_of. now rewrite Hcsv, Hname.
      + unfold screenshots_of. now rewrite Hshots. }
  destruct Hc as (ca & cb & Hca & Hcb & He).
  rewrite (send_run sa w _ Hca), (send_run sb w _ Hcb), <- Hto.
  cbn [_content sa sb]. rewrite <- Hname.
  destruct (_get_to sa) as [e | to]; [now split |].
  now apply delivery_ignores_header_data.
Qed.

(** C9, where the code departs from it.  A content on the normal path
    that carries CSV bytes is never posted: the bytes do not serialise, and
    [send] raises before any request is made. *)
Theorem csv_report_is_never_posted self w to :
  _get_to self = inr to ->
  truthy_str (text (_content self)) = false ->
  truthy_bytes (csv (_content self)) = true ->
  send nh3_clean network self w
  = (inl (NotificationError "Object of type bytes is not JSON serializable"
            (TypeError "Object of type bytes is not JSON serializable")), w) /\
  posts (snd (send nh3_clean network self w)) = posts w.
Proof.
  intros Hto Ht Hcsv.
  rewrite (send_run self w _ (get_content_normal self Ht)), Hto.
  unfold delivery, envelope, normal_content, csv_data_of.
  destruct (csv (_content self)) as [[| b bs] |]; try discriminate.
  split; reflexivity.
Qed.

(** An envelope without data serialises. *)
Lemma dumps_envelope_without_data subject content :
  WebhookContent.data content = None ->
  (exists s, WebhookContent.body content = PStr s) \/
  (exists d u, WebhookContent.body content = PDict [("description", PStr d);
                                                     ("url", PStr u)]) ->
  exists data, JsonDumps.dumps (envelope subject content) = inr data.
Proof.
  intros Hd Hb. unfold envelope. rewrite Hd. cbn [py_opt_dict].
  assert (Hi : exists si,
             JsonDumps.dumps (py_opt_strs (WebhookContent.images content)) = inr si).
  { destruct (WebhookContent.images content) as [imgs |]; cbn [py_opt_strs].
    - eexists. apply dumps_strs.
    - now eexists. }
  destruct Hi as (si & Hi). revert Hi.
  generalize (py_opt_strs (WebhookContent.images content)). intros v Hv.
  destruct Hb as [(s & ->) | (d & u & ->)];
    cbn [JsonDumps.dumps res_bind res_map]; rewrite Hv; now eexists.
Qed.

(** What C9 says holds for every content without CSV bytes: once the
    destination is resolved, [send] serialises the envelope and makes one
    call of [requests.post], to the destination, with the serialised text
    as data, no headers and a timeout of 30. *)
Lemma send_posts_the_envelope self w to :
  _get_to self = inr to ->
  truthy_str (text (_content self)) = true \/
  truthy_bytes (csv (_content self)) = false ->
  exists content data,
    _get_content nh3_clean self = inr content /\
    JsonDumps.dumps (envelope (name (_content self)) content) = inr data /\
    posts (snd (send nh3_clean network self w))
    = (posts w ++ [post_request to data])%list.
Proof.
  intros Hto H.
  assert (Hc : exists content,
             _get_content nh3_clean self = inr content /\
             exists data,
               JsonDumps.dumps (envelope (name (_content self)) content) = inr data).
  { destruct (truthy_str (text (_content self))) eqn:Ht.
    - apply truthy_str_spec in Ht as (t & Ht & Hne).
      eexists. split; [exact (get_content_error self t Ht Hne) |].
      apply dumps_envelope_without_data; [reflexivity | left; now eexists].
    - destruct H as [H | H]; [discriminate |].
      eexists. split; [exact (get_content_normal self Ht) |].
      apply dumps_envelope_without_data; [| right; now do 2 eexists].
      cbn [normal_content WebhookContent.data]. unfold csv_data_of.
      destruct (csv (_content self)) as [[| b bs] |];
        [reflexivity | discriminate | reflexivity]. }
  destruct Hc as (content & Hc & data & Hd).
  exists content, data. split; [exact Hc |]. split; [exact Hd |].
  rewrite (send_run self w _ Hc), Hto. unfold delivery. rewrite Hd.
  destruct (network _) as [e | response]; [reflexivity |].
  destruct (raise_for_status response) as [e | []]; reflexivity.
Qed.

(** C10.  On the error path the formatted content has no header metadata,
    whatever the content carried, so the record that a successful [send]
    logs has none. *)
Theorem error_path_logs_no_header_data self t :
  text (_content self) = Some t -> t <> EmptyString ->
  (exists content,
      _get_content nh3_clean self = inr content /\
      WebhookContent.header_data content = None) /\
  (forall w w',
      send nh3_clean network self w = (inr tt, w') ->
      exists to status, logs w' = (logs w ++ [sent_record None to status])%list).
Proof.
  intros Ht Hne. pose proof (get_content_error self t Ht Hne) as Hc. split.
  - eexists. split; [exact Hc | reflexivity].
  - intros w w'. rewrite (send_run self w _ Hc).
    destruct (_get_to self) as [e | to]; [discriminate |].
    unfold delivery.
    destruct (JsonDumps.dumps _) as [e | data]; [discriminate |].
    destruct (network _) as [e | response]; [discriminate |].
    destruct (raise_for_status response) as [e | []]; [discriminate |].
    intros [= <-]. now do 2 eexists.
Qed.

End WebhookFacts.

(* ===================================================================== *)
(** * Concrete runs *)
(* ===================================================================== *)

Import Sample.
Import NotificationContent.

(** The text of the report on the wire. *)
Example report_on_the_wire :
  map req_data (posts (snd (send plain_clean ok report_to_hook world0)))
  = ["{" ++ quoted "subject" ++ ": " ++ quoted "Q1 Sales" ++ ", "
         ++ quoted "content" ++ ": {"
         ++ quoted "body" ++ ": {"
         ++ quoted "description" ++ ": " ++ quoted "Quarterly sales" ++ ", "
         ++ quoted "url" ++ ": " ++ quoted "https://superset.example.com/chart/7"
         ++ "}, "
         ++ quoted "data" ++ ": null, "
         ++ quoted "images" ++ ": [" ++ quoted "TWFu" ++ ", " ++ quoted "TQ==" ++ "]}}"].
Proof. vm_compute. reflexivity. Qed.

(** A 200 answer: one request, one log record with the status. *)
Example delivered_and_logged :
  let run := send plain_clean ok report_to_hook world0 in
  fst run = inr tt /\
  map req_url (posts (snd run)) = [JStr hook] /\
  map req_headers (posts (snd run)) = [[]] /\
  map req_timeout (posts (snd run)) = [30%Z] /\
  logs (snd run) = [sent_record (Some header) (JStr hook) 200].
Proof. vm_compute. repeat split. Qed.

(** A 500 answer is a [NotificationError] with the status in its message. *)
Example server_error_is_reported :
  fst (send plain_clean down report_to_hook world0) = inl server_error.
Proof. vm_compute. reflexivity. Qed.

(** A redirect status is not an error to [raise_for_status]. *)
Example not_modified_is_delivered :
  fst (send plain_clean (endpoint 304 "Not Modified") report_to_hook world0)
  = inr tt.
Proof. vm_compute. reflexivity. Qed.

Example loads_hook_config :
  JsonLoads.loads (recipient_config_json hook_config)
  = inr (JObj [("target", JStr hook)]).
Proof. vm_compute. reflexivity. Qed.

Example loads_malformed_config :
  JsonLoads.loads (recipient_config_json malformed_config)
  = inl (JSONDecodeError "Expecting property name enclosed in double quotes").
Proof. vm_compute. reflexivity. Qed.

Example loads_values :
  JsonLoads.loads ("[1, -2.5e3, true, false, null, {" ++ quoted "k" ++ ": []}]")
  = inr (JArr [JNum "1"; JNum "-2.5e3"; JBool true; JBool false; JNull;
               JObj [("k", JArr [])]]).
Proof. vm_compute. reflexivity. Qed.

Example loads_trailing_comma :
  JsonLoads.loads "[1,]" = inl (JSONDecodeError "Expecting value").
Proof. vm_compute. reflexivity. Qed.

Example get_to_of_a_list :
  _get_to (notify report {| recipient_config_json := "[]" |})
  = inl (TypeError "list indices must be integers or slices, not str").
Proof. vm_compute. reflexivity. Qed.

(** ** Witnesses and counterexamples *)

(** C1 as stated fails: with the configuration [{}], [send] raises the
    [KeyError] of the subscript, not a [NotificationError]. *)
Lemma missing_target_raises_key_error :
  lacks_target no_target_config /\
  fst (send plain_clean ok report_without_target world0)
  = inl (KeyError "target") /\
  is_notification_error (KeyError "target") = false.
Proof.
  split; [exists []; split; reflexivity |].
  split; vm_compute; reflexivity.
Qed.

Lemma send_failure_kinds_witness :
  (send plain_clean faulty report_to_hook world0
   = (inl aggregated_error, snd (send plain_clean faulty report_to_hook world0)) /\
   _get_content plain_clean report_to_hook = inr More.report_formatted /\
   JsonDumps.dumps (envelope (name (_content report_to_hook)) More.report_formatted)
   = inr More.report_text /\
   exists cause,
     (faulty (post_request (JStr hook) More.report_text) = inl cause \/
      exists response,
        faulty (post_request (JStr hook) More.report_text) = inr response /\
        raise_for_status response = inl cause) /\
     aggregated_error
     = NotificationError
         match cause with
         | SupersetErrorsException errors _ => Str.join ";" (map message errors)
         | _ => exc_str cause
         end
         cause) /\
  (send plain_clean down report_to_hook world0
   = (inl server_error, snd (send plain_clean down report_to_hook world0)) /\
   exists cause,
     (down (post_request (JStr hook) More.report_text) = inl cause \/
      exists response,
        down (post_request (JStr hook) More.report_text) = inr response /\
        raise_for_status response = inl cause) /\
     server_error
     = NotificationError
         match cause with
         | SupersetErrorsException errors _ => Str.join ";" (map message errors)
         | _ => exc_str cause
         end
         cause) /\
  (send plain_clean ok report_without_target world0
   = (inl (KeyError "target"), snd (send plain_clean ok report_without_target world0)) /\
   snd (send plain_clean ok report_without_target world0) = world0 /\
   is_notification_error (KeyError "target") = false).
Proof.
  assert (Hc : _get_content plain_clean report_to_hook = inr More.report_formatted)
    by reflexivity.
  assert (Hd : JsonDumps.dumps
                 (envelope (name (_content report_to_hook)) More.report_formatted)
               = inr More.report_text)
    by (vm_compute; reflexivity).
  assert (Hf : send plain_clean faulty report_to_hook world0
               = (inl aggregated_error,
                  snd (send plain_clean faulty report_to_hook world0)))
    by (vm_compute; reflexivity).
  assert (Hs : send plain_clean down report_to_hook world0
               = (inl server_error, snd (send plain_clean down report_to_hook world0)))
    by (vm_compute; reflexivity).
  assert (Hk : send plain_clean ok report_without_target world0
               = (inl (KeyError "target"),
                  snd (send plain_clean ok report_without_target world0)))
    by (vm_compute; reflexivity).
  split; [| split].
  - split; [exact Hf |]. split; [exact Hc |]. split; [exact Hd |].
    exact (send_failure_kinds plain_clean faulty report_to_hook world0 _ _ Hf
             More.report_formatted More.report_text Hc Hd).
  - split; [exact Hs |].
    exact (send_failure_kinds plain_clean down report_to_hook world0 _ _ Hs
             More.report_formatted More.report_text Hc Hd).
  - split; [exact Hk |].
    destruct (send_failure_kinds plain_clean ok report_without_target world0 _ _ Hk)
      as (_ & Hw & Hn).
    split; [exact Hw | exact Hn].
Defined.

Lemma error_text_payload_witness :
  text (_content failed_report_to_hook) = Some "Query timed out" /\
  "Query timed out" <> EmptyString /\
  exists content,
    _get_content plain_clean failed_report_to_hook = inr content /\
    _error_template failed_report_to_hook "Query timed out"
    = inr (error_body "Query timed out" (url (_content failed_report_to_hook))) /\
    WebhookContent.body content
    = PStr (error_body "Query timed out" (url (_content failed_report_to_hook))) /\
    Str.contains "Query timed out"
                 (error_body "Query timed out" (url (_content failed_report_to_hook))) /\
    Str.contains (url (_content failed_report_to_hook))
                 (error_body "Query timed out" (url (_content failed_report_to_hook))) /\
    WebhookContent.images content = None /\
    WebhookContent.data content = None.
Proof.
  split; [reflexivity |]. split; [discriminate |].
  apply (error_text_payload plain_clean failed_report_to_hook "Query timed out");
    [reflexivity | discriminate].
Defined.

Lemma images_encode_screenshots_witness :
  truthy_str (text (_content report_to_hook)) = false /\
  exists content imgs,
    _get_content plain_clean report_to_hook = inr content /\
    WebhookContent.images content = Some imgs /\
    length imgs = length (screenshots_of (_content report_to_hook)) /\
    (forall i shot,
        nth_error (screenshots_of (_content report_to_hook)) i = Some shot ->
        nth_error imgs i = Some (Base64.b64encode_ascii shot) /\
        Base64.a2b (Base64.b64encode_ascii shot) = Some shot) /\
    (truthy_list (screenshots (_content report_to_hook)) = false -> imgs = []).
Proof.
  split; [reflexivity |].
  apply (images_encode_screenshots plain_clean report_to_hook). reflexivity.
Defined.

Lemma aggregated_errors_are_joined_witness :
  _get_to report_to_hook = inr (JStr hook) /\
  fst (send plain_clean faulty report_to_hook world0)
  = inl (NotificationError "A failed;B failed" aggregated_fault).
Proof.
  split; [vm_compute; reflexivity |].
  eapply (aggregated_errors_are_joined plain_clean faulty report_to_hook world0 (JStr hook)
            _ _ [A_failed; B_failed] "[A failed, B failed]").
  - vm_compute; reflexivity.
  - reflexivity.
  - reflexivity.
  - reflexivity.
Defined.

Lemma no_request_without_destination_witness :
  (malformed (_recipient report_without_target) \/ lacks_target (_recipient report_without_target)) /\
  exists e,
    send plain_clean ok report_without_target world0 = (inl e, world0) /\
    posts (snd (send plain_clean ok report_without_target world0)) = posts world0.
Proof.
  assert (H : malformed (_recipient report_without_target) \/ lacks_target (_recipient report_without_target)).
  { right. exists []. split; reflexivity. }
  split; [exact H |].
  exact (no_request_without_destination plain_clean ok report_without_target world0 H).
Defined.

(** C7 as stated fails: CSV bytes that are present but empty give no data
    field, not a mapping to the empty bytes. *)
Lemma present_empty_csv_gives_no_data :
  csv empty_csv_report = Some [] /\
  truthy_str (text empty_csv_report) = false /\
  res_map WebhookContent.data
          (_get_content plain_clean empty_csv_report_to_hook)
  = inr None.
Proof. repeat split. Qed.

Lemma csv_data_single_entry_witness :
  truthy_str (text (_content csv_report_to_hook)) = false /\
  exists content,
    _get_content plain_clean csv_report_to_hook = inr content /\
    (forall bytes,
        csv (_content csv_report_to_hook) = Some bytes -> bytes <> [] ->
        WebhookContent.data content
        = Some [(name (_content csv_report_to_hook) ++ ".csv", PBytes bytes)]) /\
    (truthy_bytes (csv (_content csv_report_to_hook)) = false ->
     WebhookContent.data content = None).
Proof.
  split; [reflexivity |].
  apply (csv_data_single_entry plain_clean csv_report_to_hook). reflexivity.
Defined.

Lemma header_data_stays_off_the_wire_witness :
  same_but_header_data report report_without_header /\
  posts (snd (send plain_clean ok report_to_hook world0))
  = posts (snd (send plain_clean ok (notify report_without_header hook_config) world0)) /\
  fst (send plain_clean ok report_to_hook world0)
  = fst (send plain_clean ok (notify report_without_header hook_config) world0).
Proof.
  assert (H : same_but_header_data report report_without_header)
    by (repeat split).
  split; [exact H |].
  exact (header_data_stays_off_the_wire plain_clean ok report report_without_header
           hook_config world0 H).
Defined.

Lemma csv_report_is_never_posted_witness :
  _get_to csv_report_to_hook = inr (JStr hook) /\
  truthy_str (text (_content csv_report_to_hook)) = false /\
  truthy_bytes (csv (_content csv_report_to_hook)) = true /\
  send plain_clean ok csv_report_to_hook world0
  = (inl bytes_error, world0) /\
  posts (snd (send plain_clean ok csv_report_to_hook world0)) = posts world0.
Proof.
  assert (Hto : _get_to csv_report_to_hook = inr (JStr hook)) by (vm_compute; reflexivity).
  split; [exact Hto |]. split; [reflexivity |]. split; [reflexivity |].
  exact (csv_report_is_never_posted plain_clean ok csv_report_to_hook world0 (JStr hook)
           Hto eq_refl eq_refl).
Defined.

Lemma error_path_logs_no_header_data_witness :
  text (_content failed_report_to_hook) = Some "Query timed out" /\
  "Query timed out" <> EmptyString /\
  header_data (_content failed_report_to_hook) = Some header /\
  (exists content,
      _get_content plain_clean failed_report_to_hook = inr content /\
      WebhookContent.header_data content = None) /\
  (forall w w',
      send plain_clean ok failed_report_to_hook w = (inr tt, w') ->
      exists to status, logs w' = (logs w ++ [sent_record None to status])%list).
Proof.
  split; [reflexivity |]. split; [discriminate |]. split; [reflexivity |].
  apply (error_path_logs_no_header_data plain_clean ok failed_report_to_hook "Query timed out");
    [reflexivity | discriminate].
Defined.

(** The failed report is delivered, and its log record has no header
    metadata although the content has. *)
Example failed_report_is_logged_without_header :
  logs (snd (send plain_clean ok failed_report_to_hook world0))
  = [sent_record None (JStr hook) 200].
Proof. vm_compute. reflexivity. Qed.

(* ===================================================================== *)
(** * Further properties of the formatter and the dispatcher *)
(* ===================================================================== *)

Section Further.

Variable nh3_clean : string -> string.
Variable network : Request -> Res Response.

(** X1.  The subject is the name of the content as it is, whatever
    characters it holds (a percent sign or a format directive in the name
    is not interpreted), and computing it never raises. *)
Theorem subject_is_the_name_verbatim self :
  _get_subject self = inr (name (_content self)).
Proof. unfold _get_subject. apply gettext_title. Qed.

(** X2.  Formatting never raises, and the shape of the body follows the
    error text alone: a string when the error text is non-empty, and
    otherwise a dict with the two keys [description] and [url], in this
    order. *)
Theorem formatting_never_raises self :
  exists content,
    _get_content nh3_clean self = inr content /\
    if truthy_str (text (_content self))
    then exists s, WebhookContent.body content = PStr s
    else exists d u,
        WebhookContent.body content = PDict [("description", PStr d); ("url", PStr u)].
Proof.
  destruct (truthy_str (text (_content self))) eqn:Ht.
  - apply truthy_str_spec in Ht as (t & Ht & Hne).
    eexists. split; [exact (get_content_error nh3_clean self t Ht Hne) |].
    now eexists.
  - eexists. split; [exact (get_content_normal nh3_clean self Ht) |].
    now do 2 eexists.
Qed.

(** X3.  A failed report shows its name, its error text and its URL and
    nothing else: two contents with the same three, sent to the same
    recipient, make [send] do the same and leave the same world, whatever
    their screenshots, CSV, description and header metadata are and
    whatever the sanitiser does.  The sanitiser is not consulted on the
    error path. *)
Theorem failed_report_shows_name_text_url clean clean' a b r w t :
  text a = Some t -> t <> EmptyString -> text b = Some t ->
  name a = name b -> url a = url b ->
  send clean network {| _content := a; _recipient := r |} w
  = send clean' network {| _content := b; _recipient := r |} w.
Proof.
  intros Ha Hne Hb Hname Hurl.
  rewrite (send_run clean network {| _content := a; _recipient := r |} w _
             (get_content_error clean {| _content := a; _recipient := r |} t Ha Hne)).
  rewrite (send_run clean' network {| _content := b; _recipient := r |} w _
             (get_content_error clean' {| _content := b; _recipient := r |} t Hb Hne)).
  cbn [_content]. rewrite Hname, Hurl. reflexivity.
Qed.

(** X4.  A recipient configuration that is JSON but no object (an array,
    a string, a number, a boolean, null) makes [send] raise the
    [TypeError] of the subscript as it is, before any request. *)
Theorem non_object_configuration_is_a_type_error self w v :
  JsonLoads.loads (recipient_config_json (_recipient self)) = inr v ->
  is_object v = false ->
  exists msg, send nh3_clean network self w = (inl (TypeError msg), w).
Proof.
  intros Hl Hv.
  assert (Hto : exists msg, _get_to self = inl (TypeError msg)).
  { unfold _get_to. rewrite Hl. cbn [res_bind].
    destruct v; try discriminate; cbn; now eexists. }
  destruct Hto as (msg & Hto). exists msg.
  exact (send_raises_what_get_to_raises nh3_clean network self w _ Hto).
Qed.

(** X5.  The target is not validated: whatever JSON value the
    configuration holds under [target], string or not, is the first
    argument of [requests.post]. *)
Theorem target_is_posted_to_unvalidated self w members v :
  JsonLoads.loads (recipient_config_json (_recipient self)) = inr (JObj members) ->
  JsonLoads.lookup "target" members = Some v ->
  truthy_str (text (_content self)) = true \/
  truthy_bytes (csv (_content self)) = false ->
  map req_url (posts (snd (send nh3_clean network self w)))
  = (map req_url (posts w) ++ [v])%list.
Proof.
  intros Hl Hk Hc.
  assert (Hto : _get_to self = inr v).
  { unfold _get_to. rewrite Hl. cbn. now rewrite Hk. }
  destruct (send_posts_the_envelope nh3_clean network self w v Hto Hc)
    as (content & data & _ & _ & ->).
  now rewrite map_app.
Qed.

(** X6.  [send] returns normally exactly when the destination resolves,
    the envelope serialises, the client answers and the status of the
    answer is no error; it has then posted one request and logged one
    record, with the header metadata of the formatted content, the
    destination and the status. *)
Theorem send_succeeds_exactly_when self w w' :
  send nh3_clean network self w = (inr tt, w') <->
  exists to content data response,
    _get_to self = inr to /\
    _get_content nh3_clean self = inr content /\
    JsonDumps.dumps (envelope (name (_content self)) content) = inr data /\
    network (post_request to data) = inr response /\
    is_error_status (status_code response) = false /\
    w' = posted_and_logged (post_request to data)
           (sent_record (WebhookContent.header_data content) to (status_code response))
           w.
Proof.
  assert (Hrfs : forall r, is_error_status (status_code r) = false <->
                           raise_for_status r = inr tt).
  { intros r. unfold is_error_status, raise_for_status.
    destruct (400 <=? status_code r)%Z eqn:E1; destruct (status_code r <? 500)%Z eqn:E2;
      destruct (500 <=? status_code r)%Z eqn:E3; destruct (status_code r <? 600)%Z eqn:E4;
      cbn; split; try discriminate; try reflexivity; lia. }
  destruct (get_content_total nh3_clean self) as (content & Hc).
  rewrite (send_run nh3_clean network self w _ Hc). split.
  - destruct (_get_to self) as [e | to]; [discriminate |].
    unfold delivery.
    destruct (JsonDumps.dumps _) as [e | data] eqn:Hd; [discriminate |].
    destruct (network _) as [e | response] eqn:Hn; [discriminate |].
    destruct (raise_for_status response) as [e | []] eqn:Hr; [discriminate |].
    intros [= <-]. exists to, content, data, response.
    repeat (split; [assumption || reflexivity |]).
    split; [now apply Hrfs | reflexivity].
  - intros (to & content' & data & response & Hto & Hc' & Hd & Hn & Hs & ->).
    assert (content' = content) as -> by congruence.
    rewrite Hto. unfold delivery. rewrite Hd, Hn.
    apply Hrfs in Hs. now rewrite Hs.
Qed.

(** X7.  Once the client has answered, the status decides: the statuses
    from 400 to 599 make [send] raise a [NotificationError] with the
    message of [raise_for_status] (client error below 500, server error
    from 500) and log nothing; every other status, a redirect or an
    informational one included, counts as delivered and is logged. *)
Theorem status_decides_the_outcome self w to content data response :
  _get_to self = inr to ->
  _get_content nh3_clean self = inr content ->
  JsonDumps.dumps (envelope (name (_content self)) content) = inr data ->
  network (post_request to data) = inr response ->
  send nh3_clean network self w =
    if is_error_status (status_code response) then
      (inl (NotificationError
              (http_error_message
                 (if (status_code response <? 500)%Z then "Client" else "Server") response)
              (HTTPError
                 (http_error_message
                    (if (status_code response <? 500)%Z then "Client" else "Server")
                    response))),
       posted (post_request to data) w)
    else
      (inr tt,
       posted_and_logged (post_request to data)
         (sent_record (WebhookContent.header_data content) to (status_code response)) w).
Proof.
  intros Hto Hc Hd Hn.
  rewrite (send_run nh3_clean network self w _ Hc), Hto.
  unfold delivery. rewrite Hd, Hn.
  unfold raise_for_status, is_error_status, http_error_message.
  destruct (400 <=? status_code response)%Z eqn:E1;
    destruct (status_code response <? 500)%Z eqn:E2;
    destruct (500 <=? status_code response)%Z eqn:E3;
    destruct (status_code response <? 600)%Z eqn:E4;
    cbn; try reflexivity; lia.
Qed.

(** X8.  A fault of the client other than the aggregated one (connection
    refused, timeout, an invalid URL, ...) comes out as a
    [NotificationError] whose message is the text of the fault and whose
    cause is the fault; the request counts as made, and nothing is
    logged. *)
Theorem client_fault_is_wrapped self w to content data ex :
  _get_to self = inr to ->
  _get_content nh3_clean self = inr content ->
  JsonDumps.dumps (envelope (name (_content self)) content) = inr data ->
  network (post_request to data) = inl ex ->
  is_aggregated ex = false ->
  send nh3_clean network self w
  = (inl (NotificationError (exc_str ex) ex), posted (post_request to data) w).
Proof.
  intros Hto Hc Hd Hn Hex.
  rewrite (send_run nh3_clean network self w _ Hc), Hto.
  unfold delivery. rewrite Hd, Hn.
  destruct ex; try discriminate; reflexivity.
Qed.

(** X9.  One call of [send] makes at most one request and never retries.
    Either it raises with the world as it was; or it has posted one
    request, to the resolved destination, without headers and with the
    timeout 30, and raises without a log record; or it has posted that
    request, logged one record and returns.  Nothing that was in the world
    before is removed. *)
Theorem send_posts_at_most_once self w :
  (exists e, send nh3_clean network self w = (inl e, w)) \/
  (exists to data e,
      _get_to self = inr to /\
      send nh3_clean network self w = (inl e, posted (post_request to data) w)) \/
  (exists to data rec,
      _get_to self = inr to /\
      send nh3_clean network self w
      = (inr tt, posted_and_logged (post_request to data) rec w)).
Proof.
  destruct (get_content_total nh3_clean self) as (content & Hc).
  rewrite (send_run nh3_clean network self w _ Hc).
  destruct (_get_to self) as [e | to]; [left; now eexists |].
  unfold delivery.
  destruct (JsonDumps.dumps _) as [e | data]; [left; now eexists |].
  destruct (network _) as [e | response];
    [right; left; exists to, data; now eexists |].
  destruct (raise_for_status response) as [e | []].
  - right; left. exists to, data. now eexists.
  - right; right. exists to, data. now eexists.
Qed.

(** X10.  The envelope of a report does not serialise exactly when the
    report is on the normal path and has CSV bytes: every failed report and
    every report without CSV serialises. *)
Theorem serialisation_fails_exactly_with_csv self content :
  _get_content nh3_clean self = inr content ->
  (exists e, JsonDumps.dumps (envelope (name (_content self)) content) = inl e) <->
  truthy_str (text (_content self)) = false /\
  truthy_bytes (csv (_content self)) = true.
Proof.
  intros Hc. split.
  - intros (e & He).
    destruct (truthy_str (text (_content self))) eqn:Ht.
    + apply truthy_str_spec in Ht as (t & Ht & Hne).
      rewrite (get_content_error nh3_clean self t Ht Hne) in Hc.
      injection Hc as <-.
      destruct (dumps_envelope_without_data (name (_content self))
                  (WebhookContent.make (PStr (error_body t (url (_content self))))))
        as (data & Hd); [reflexivity | left; now eexists | congruence].
    + split; [reflexivity |].
      destruct (truthy_bytes (csv (_content self))) eqn:Hb; [reflexivity |].
      rewrite (get_content_normal nh3_clean self Ht) in Hc. injection Hc as <-.
      destruct (dumps_envelope_without_data (name (_content self))
                  (normal_content nh3_clean (_content self)))
        as (data & Hd); [| right; now do 2 eexists | congruence].
      cbn [normal_content WebhookContent.data]. unfold csv_data_of.
      destruct (csv (_content self)) as [[| x xs] |];
        [reflexivity | discriminate | reflexivity].
  - intros (Ht & Hb).
    rewrite (get_content_normal nh3_clean self Ht) in Hc. injection Hc as <-.
    unfold envelope, normal_content, csv_data_of.
    destruct (csv (_content self)) as [[| x xs] |]; try discriminate.
    now eexists.
Qed.

End Further.

(** ** Images *)

Section Images.

Variable nh3_clean : string -> string.

Import Base64.

(** A character that [json.dumps] prints as it is. *)
Lemma alphabet_is_printed_verbatim i :
  (0 <= i < 64)%Z ->
  JsonDumps.escape_cp (Char.code (table_b2a i)) = Str.of_char (table_b2a i) /\
  (Char.code (table_b2a i) <? 192)%Z = true.
Proof.
  intros Hi.
  pose (P := fun i =>
               String.eqb (JsonDumps.escape_cp (Char.code (table_b2a i)))
                          (Str.of_char (table_b2a i))
               && (Char.code (table_b2a i) <? 192)%Z).
  assert (HP : P i = true)
    by (apply (forall_below P 64); [vm_compute; reflexivity | exact Hi]).
  unfold P in HP. apply andb_true_iff in HP as (H1 & H2).
  split; [now apply String.eqb_eq | exact H2].
Qed.

Lemma escape_sextet n k rest :
  (0 <= k)%Z ->
  JsonDumps.escape (String (sextet n k) rest)
  = String (sextet n k) (JsonDumps.escape rest).
Proof.
  intros Hk. unfold sextet.
  destruct (alphabet_is_printed_verbatim (Z.land (Z.shiftr n k) 63)) as (He & Hlt);
    [now apply six_bits_range |].
  cbn [JsonDumps.escape]. cbv zeta. now rewrite Hlt, He.
Qed.

Lemma escape_b2a data : JsonDumps.escape (b2a data) = b2a data.
Proof.
  induction data as [| a | a b | a b c rest IH] using list_ind3;
    cbn [b2a]; cbv zeta; rewrite ?escape_sextet by lia;
    [reflexivity | reflexivity | reflexivity | now rewrite IH].
Qed.

(** X11.  The base64 text of [n] bytes has four characters for every
    three bytes or part of three: [4 * ceil (n / 3)] in all. *)
Theorem image_length data :
  String.length (b64encode_ascii data) = 4 * ((length data + 2) / 3).
Proof.
  unfold b64encode_ascii.
  induction data as [| a | a b | a b c rest IH] using list_ind3;
    try reflexivity.
  cbn [b2a]. cbv zeta. cbn [String.length List.length]. rewrite IH.
  replace (S (S (S (length rest))) + 2) with (1 * 3 + (length rest + 2)) by lia.
  rewrite Nat.div_add_l by discriminate. lia.
Qed.

(** X12.  The images go onto the wire as they are: base64 text holds no
    character that [json.dumps] escapes, so the images field of a report is
    serialised as the bracketed list of the base64 texts between double
    quotes. *)
Theorem images_are_serialised_verbatim self :
  truthy_str (text (_content self)) = false ->
  exists content,
    _get_content nh3_clean self = inr content /\
    JsonDumps.dumps (py_opt_strs (WebhookContent.images content))
    = inr ("[" ++ Str.join ", "
                    (map (fun shot => in_quotes (b64encode_ascii shot))
                         (screenshots_of (_content self)))
               ++ "]").
Proof.
  intros Ht. eexists. split; [exact (get_content_normal nh3_clean self Ht) |].
  cbn [normal_content WebhookContent.images py_opt_strs].
  rewrite dumps_strs, map_map.
  rewrite (map_ext (fun shot => JsonDumps.encode_str (b64encode_ascii shot))
                   (fun shot => in_quotes (b64encode_ascii shot))); [reflexivity |].
  intros shot. unfold JsonDumps.encode_str, in_quotes, b64encode_ascii.
  now rewrite escape_b2a.
Qed.

Lemma b64encode_injective d d' :
  b64encode_ascii d = b64encode_ascii d' -> d = d'.
Proof.
  intros H. pose proof (a2b_b2a d) as Hd. unfold b64encode_ascii in H.
  rewrite H, a2b_b2a in Hd. now injection Hd.
Qed.

(** X13.  The images lose nothing: two reports whose formatted images are
    the same have the same screenshots, byte for byte. *)
Theorem same_images_same_screenshots a b content content' :
  truthy_str (text (_content a)) = false ->
  truthy_str (text (_content b)) = false ->
  _get_content nh3_clean a = inr content ->
  _get_content nh3_clean b = inr content' ->
  WebhookContent.images content = WebhookContent.images content' ->
  screenshots_of (_content a) = screenshots_of (_content b).
Proof.
  intros Ha Hb Hc Hc'.
  rewrite (get_content_normal nh3_clean a Ha) in Hc.
  rewrite (get_content_normal nh3_clean b Hb) in Hc'.
  injection Hc as <-. injection Hc' as <-.
  cbn [normal_content WebhookContent.images]. intros [= H].
  revert H. generalize (screenshots_of (_content b)).
  induction (screenshots_of (_content a)) as [| s l IH]; intros [| s' l'];
    cbn [map]; try discriminate; [reflexivity |].
  intros [= Hs Hl]. f_equal; [now apply b64encode_injective | now apply IH].
Qed.

End Images.

(** ** Witnesses of the further properties *)

Import More.

Lemma failed_report_shows_name_text_url_witness :
  text failed_report = Some "Query timed out" /\
  "Query timed out" <> EmptyString /\
  text bare_failed_report = Some "Query timed out" /\
  name failed_report = name bare_failed_report /\
  url failed_report = url bare_failed_report /\
  send plain_clean ok {| _content := failed_report; _recipient := hook_config |} world0
  = send blank_clean ok {| _content := bare_failed_report; _recipient := hook_config |}
         world0.
Proof.
  do 2 (split; [reflexivity || discriminate |]).
  do 3 (split; [reflexivity |]).
  apply (failed_report_shows_name_text_url ok plain_clean blank_clean
           failed_report bare_failed_report hook_config world0 "Query timed out");
    reflexivity || discriminate.
Defined.

Lemma non_object_configuration_is_a_type_error_witness :
  JsonLoads.loads (recipient_config_json (_recipient report_to_list)) = inr (JArr []) /\
  is_object (JArr []) = false /\
  exists msg, send plain_clean ok report_to_list world0 = (inl (TypeError msg), world0).
Proof.
  split; [reflexivity |]. split; [reflexivity |].
  apply (non_object_configuration_is_a_type_error plain_clean ok report_to_list world0
           (JArr [])); reflexivity.
Defined.

Lemma target_is_posted_to_unvalidated_witness :
  JsonLoads.loads (recipient_config_json (_recipient report_to_number))
  = inr (JObj [("target", JNum "5")]) /\
  map req_url (posts (snd (send plain_clean ok report_to_number world0)))
  = (map req_url (posts world0) ++ [JNum "5"])%list.
Proof.
  split; [vm_compute; reflexivity |].
  apply (target_is_posted_to_unvalidated plain_clean ok report_to_number world0
           [("target", JNum "5")] (JNum "5"));
    [vm_compute; reflexivity | reflexivity | right; reflexivity].
Defined.

Lemma send_succeeds_exactly_when_witness :
  send plain_clean ok report_to_hook world0
  = (inr tt, snd (send plain_clean ok report_to_hook world0)) /\
  exists to content data response,
    _get_to report_to_hook = inr to /\
    _get_content plain_clean report_to_hook = inr content /\
    JsonDumps.dumps (envelope (name (_content report_to_hook)) content) = inr data /\
    ok (post_request to data) = inr response /\
    is_error_status (status_code response) = false /\
    snd (send plain_clean ok report_to_hook world0)
    = posted_and_logged (post_request to data)
        (sent_record (WebhookContent.header_data content) to (status_code response))
        world0.
Proof.
  assert (H : send plain_clean ok report_to_hook world0
              = (inr tt, snd (send plain_clean ok report_to_hook world0)))
    by (vm_compute; reflexivity).
  split; [exact H |].
  exact (proj1 (send_succeeds_exactly_when plain_clean ok report_to_hook world0 _) H).
Defined.

Lemma status_decides_the_outcome_witness :
  _get_to report_to_hook = inr (JStr hook) /\
  unchanged report_request = inr unchanged_response /\
  is_error_status (status_code unchanged_response) = false /\
  send plain_clean unchanged report_to_hook world0
  = (inr tt,
     posted_and_logged report_request (sent_record (Some header) (JStr hook) 304) world0).
Proof.
  assert (Hto : _get_to report_to_hook = inr (JStr hook)) by (vm_compute; reflexivity).
  split; [exact Hto |]. split; [reflexivity |]. split; [reflexivity |].
  apply (status_decides_the_outcome plain_clean unchanged report_to_hook world0
           (JStr hook) report_formatted report_text unchanged_response Hto);
    [reflexivity | vm_compute; reflexivity | reflexivity].
Defined.

Lemma client_fault_is_wrapped_witness :
  _get_to report_to_hook = inr (JStr hook) /\
  refused report_request = inl refused_fault /\
  is_aggregated refused_fault = false /\
  send plain_clean refused report_to_hook world0
  = (inl (NotificationError "Connection refused" refused_fault),
     posted report_request world0).
Proof.
  assert (Hto : _get_to report_to_hook = inr (JStr hook)) by (vm_compute; reflexivity).
  split; [exact Hto |]. split; [reflexivity |]. split; [reflexivity |].
  apply (client_fault_is_wrapped plain_clean refused report_to_hook world0
           (JStr hook) report_formatted report_text refused_fault Hto);
    [reflexivity | vm_compute; reflexivity | reflexivity | reflexivity].
Defined.

Lemma serialisation_fails_exactly_with_csv_witness :
  _get_content plain_clean csv_report_to_hook
  = inr (normal_content plain_clean csv_report) /\
  ((exists e,
       JsonDumps.dumps (envelope (name (_content csv_report_to_hook))
                                 (normal_content plain_clean csv_report)) = inl e) <->
   truthy_str (text (_content csv_report_to_hook)) = false /\
   truthy_bytes (csv (_content csv_report_to_hook)) = true).
Proof.
  split; [reflexivity |].
  apply (serialisation_fails_exactly_with_csv plain_clean csv_report_to_hook
           (normal_content plain_clean csv_report)).
  reflexivity.
Defined.

Lemma images_are_serialised_verbatim_witness :
  truthy_str (text (_content report_to_hook)) = false /\
  exists content,
    _get_content plain_clean report_to_hook = inr content /\
    JsonDumps.dumps (py_opt_strs (WebhookContent.images content))
    = inr ("[" ++ Str.join ", "
                    (map (fun shot => in_quotes (Base64.b64encode_ascii shot))
                         (screenshots_of (_content report_to_hook)))
               ++ "]").
Proof.
  split; [reflexivity |].
  apply (images_are_serialised_verbatim plain_clean report_to_hook). reflexivity.
Defined.

Lemma same_images_same_screenshots_witness :
  truthy_str (text (_content report_to_hook)) = false /\
  WebhookContent.images (normal_content plain_clean report)
  = WebhookContent.images (normal_content plain_clean report_without_header) /\
  screenshots_of (_content report_to_hook)
  = screenshots_of (_content (notify report_without_header hook_config)).
Proof.
  split; [reflexivity |]. split; [reflexivity |].
  apply (same_images_same_screenshots plain_clean report_to_hook
           (notify report_without_header hook_config)
           (normal_content plain_clean report)
           (normal_content plain_clean report_without_header));
    reflexivity.
Defined.

(* ===================================================================== *)
(** * The text on the wire is the envelope *)
(* ===================================================================== *)

Section Trip.
Import JsonLoads.

Lemma pyval_nested_ind (P : pyval -> Prop) :
  P PNone -> (forall s, P (PStr s)) -> (forall b, P (PBytes b)) ->
  (forall items, Forall P items -> P (PList items)) ->
  (forall entries, Forall (fun kv => P (snd kv)) entries -> P (PDict entries)) ->
  forall v, P v.
Proof.
  intros HN HS HB HL HD. fix IH 1. intros [| s | b | items | entries].
  - apply HN.
  - apply HS.
  - apply HB.
  - apply HL. induction items as [| x items IHi]; constructor; [apply IH | exact IHi].
  - apply HD. induction entries as [| [k x] entries IHe]; constructor;
      [apply IH | exact IHe].
Qed.

(** *** Printing *)

Lemma dumps_render v : plain v = true -> JsonDumps.dumps v = inr (render v).
Proof.
  induction v as [| s | b | items IH | entries IH] using pyval_nested_ind;
    intros Hp; try reflexivity; try discriminate.
  - cbn [JsonDumps.dumps render]. cbn [plain] in Hp.
    match goal with
    | |- res_map _ ?x = _ => assert (E : x = inr (map render items))
    end.
    { induction IH as [| x items Hx _ IHi]; [reflexivity |].
      cbn [forallb] in Hp. apply andb_true_iff in Hp as (Hx' & Hp).
      rewrite (Hx Hx'). cbn [res_bind map]. rewrite (IHi Hp). reflexivity. }
    rewrite E. reflexivity.
  - cbn [JsonDumps.dumps render]. cbn [plain] in Hp.
    apply andb_true_iff in Hp as (_ & Hp).
    match goal with
    | |- res_map _ ?x = _ =>
        assert (E : x = inr (map (fun kv => JsonDumps.encode_str (fst kv) ++ ": "
                                             ++ render (snd kv)) entries))
    end.
    { induction IH as [| [k x] entries Hx _ IHe]; [reflexivity |].
      cbn [forallb] in Hp. apply andb_true_iff in Hp as (Hx' & Hp).
      apply andb_true_iff in Hx' as (_ & Hx'). cbn [snd] in Hx, Hx'.
      rewrite (Hx Hx'). cbn [res_bind map]. rewrite (IHe Hp). reflexivity. }
    rewrite E. reflexivity.
Qed.


(** *** Scanning *)

Lemma scan_cons m ps c rest :
  scan m ps (String c rest) =
  match advance m ps c rest with
  | inl e => inl e
  | inr (m', ps') => scan m' ps' rest
  end.
Proof. reflexivity. Qed.

Lemma scan_escaped_char c read ps tail :
  (Char.code c <? 128)%Z = true ->
  scan (InStr read) ps (JsonDumps.escape_cp (Char.code c) ++ tail)
  = scan (InStr (read ++ Str.of_char c)) ps tail.
Proof.
  destruct c as [[] [] [] [] [] [] [] []]; intros H; try discriminate H; clear H.
  all: simpl; reflexivity.
Qed.

Lemma escape_ascii_cons c s :
  (Char.code c <? 128)%Z = true ->
  JsonDumps.escape (String c s) = JsonDumps.escape_cp (Char.code c) ++ JsonDumps.escape s.
Proof.
  intros H. cbn [JsonDumps.escape]. cbv zeta.
  assert (E : (Char.code c <? 192)%Z = true) by lia. now rewrite E.
Qed.

Lemma scan_escaped s : forall read ps tail,
  is_ascii s = true ->
  scan (InStr read) ps (JsonDumps.escape s ++ tail) = scan (InStr (read ++ s)) ps tail.
Proof.
  induction s as [| c s IH]; intros read ps tail Hs.
  - now rewrite append_empty_r.
  - cbn [is_ascii] in Hs. apply andb_true_iff in Hs as (Hc & Hs).
    rewrite escape_ascii_cons, append_assoc, scan_escaped_char, IH by assumption.
    now rewrite append_assoc.
Qed.

(** A string token, where a string may begin. *)
Lemma scan_string s ps tail :
  is_ascii s = true -> wants_string ps = true ->
  scan Start ps (JsonDumps.encode_str s ++ tail)
  = match step ps (TScalar (JStr s)) with
    | inl e => inl e
    | inr ps' => scan Start ps' tail
    end.
Proof.
  intros Hs Hw. unfold JsonDumps.encode_str.
  change (String Str.dquote (JsonDumps.escape s ++ String Str.dquote EmptyString) ++ tail)
    with (String Str.dquote ((JsonDumps.escape s ++ String Str.dquote EmptyString) ++ tail)).
  rewrite append_assoc, scan_cons.
  change (advance Start ps Str.dquote (JsonDumps.escape s ++ String Str.dquote EmptyString ++ tail))
    with (if wants_string ps then inr (InStr EmptyString, ps) else @err (mode * pstate) (expecting ps)).
  rewrite Hw, scan_escaped by assumption.
  change (String Str.dquote EmptyString ++ tail) with (String Str.dquote tail).
  rewrite scan_cons. cbn [append].
  change (advance (InStr s) ps Str.dquote tail)
    with (res_map (pair Start) (step ps (TScalar (JStr s)))).
  now destruct (step ps (TScalar (JStr s))).
Qed.

(** A punctuation mark. *)
Lemma scan_punct c t ps tail :
  is_ws c = false -> punct c = Some t ->
  scan Start ps (String c tail)
  = match step ps t with
    | inl e => inl e
    | inr ps' => scan Start ps' tail
    end.
Proof.
  intros Hw Hp. rewrite scan_cons. unfold advance. rewrite Hw, Hp.
  now destruct (step ps t).
Qed.

Lemma scan_space ps tail : scan Start ps (String " " tail) = scan Start ps tail.
Proof. reflexivity. Qed.

Lemma step_value ps j :
  wants_value ps = true -> step ps (TScalar j) = inr (deliver j (under ps)).
Proof. destruct ps; try discriminate; reflexivity. Qed.

Lemma scan_null ps tail :
  wants_value ps = true ->
  scan Start ps ("null" ++ tail) = scan Start (deliver JNull (under ps)) tail.
Proof. destruct ps; try discriminate; reflexivity. Qed.


(** *** Containers *)

Lemma dict_set_fresh k v seen :
  existsb (String.eqb k) (map fst seen) = false ->
  dict_set k v seen = (seen ++ [(k, v)])%list.
Proof.
  induction seen as [| [k' v'] seen IH]; [reflexivity |].
  cbn [map fst existsb dict_set app]. intros H.
  apply orb_false_iff in H as (Hk & H). rewrite Hk. now rewrite IH.
Qed.

Lemma distinct_app_cons keys k rest :
  distinct (keys ++ k :: rest)%list = true ->
  existsb (String.eqb k) keys = false /\
  distinct ((keys ++ [k]) ++ rest)%list = true.
Proof.
  rewrite <- app_assoc. cbn [app].
  induction keys as [| x keys IH]; cbn [app distinct existsb].
  - intros H. split; [reflexivity | exact H].
  - intros H. apply andb_true_iff in H as (Hx & H).
    destruct (IH H) as (Hk & Hd). rewrite existsb_app in Hx. cbn [existsb] in Hx.
    apply negb_true_iff in Hx. apply orb_false_iff in Hx as (Hx1 & Hx2).
    apply orb_false_iff in Hx2 as (Hxk & Hx2).
    split.
    + rewrite String.eqb_sym, Hxk. exact Hk.
    + rewrite Hd, existsb_app. cbn [existsb]. now rewrite Hx1, Hxk, Hx2.
Qed.

Lemma join_two sep x y l :
  Str.join sep (x :: y :: l) = x ++ sep ++ Str.join sep (y :: l).
Proof. reflexivity. Qed.

Lemma scan_items items :
  Forall scans items -> items <> [] ->
  forall ps seen st tail,
    wants_value ps = true -> under ps = FArr seen :: st ->
    scan Start ps (Str.join ", " (map render items) ++ "]" ++ tail)
    = scan Start (deliver (JArr (rev seen ++ map json_of items)) st) tail.
Proof.
  induction 1 as [| x items Hx Hitems IH]; [now intros [] |]. intros _.
  intros ps seen st tail Hw Hu.
  destruct items as [| y items].
  - cbn [map Str.join String.concat]. rewrite (Hx ps _ Hw), Hu. cbn [deliver append].
    rewrite (scan_punct "]" TRBracket) by reflexivity. cbn [step].
    now cbn [rev].
  - cbn [map]. rewrite join_two, !append_assoc, (Hx ps _ Hw), Hu. cbn [deliver].
    cbn [append]. rewrite (scan_punct "," TComma) by reflexivity. cbn [step].
    rewrite scan_space.
    pose proof (IH ltac:(discriminate) (ExpectValue (FArr (json_of x :: seen) :: st))
                   (json_of x :: seen) st tail eq_refl eq_refl) as IH'.
    cbn [map append] in IH'. rewrite IH'.
    cbn [rev map]. now rewrite <- app_assoc.
Qed.

Lemma scan_members entries :
  Forall (fun kv => scans (snd kv)) entries -> entries <> [] ->
  forall ps seen st tail,
    wants_string ps = true ->
    (forall k, step ps (TScalar (JStr k)) = inr (ObjColon seen k st)) ->
    forallb (fun kv => is_ascii (fst kv)) entries = true ->
    distinct (map fst seen ++ map fst entries)%list = true ->
    scan Start ps (Str.join ", " (map member_text entries) ++ "}" ++ tail)
    = scan Start
        (deliver (JObj (seen ++ map (fun kv => (fst kv, json_of (snd kv))) entries)%list) st)
        tail.
Proof.
  induction 1 as [| [k x] entries Hx Hentries IH]; [now intros [] |]. intros _.
  intros ps seen st tail Hw Hstep Hascii Hd.
  cbn [forallb fst] in Hascii. apply andb_true_iff in Hascii as (Hk & Hascii).
  cbn [map fst] in Hd. apply distinct_app_cons in Hd as (Hfresh & Hd).
  cbn [snd] in Hx.
  assert (Hmember : forall more,
             scan Start ps (member_text (k, x) ++ more)
             = scan Start (ObjNext (seen ++ [(k, json_of x)])%list st) more).
  { intros more. unfold member_text. cbn [fst snd].
    rewrite !append_assoc, (scan_string k ps _ Hk Hw), Hstep.
    cbn [append]. rewrite (scan_punct ":" TColon) by reflexivity. cbn [step].
    rewrite scan_space, (Hx (ExpectValue (FObj seen k :: st)) _ eq_refl).
    cbn [under deliver].
    now rewrite dict_set_fresh. }
  destruct entries as [| kv entries].
  - cbn [map Str.join String.concat]. rewrite Hmember. cbn [append].
    now rewrite (scan_punct "}" TRBrace) by reflexivity.
  - cbn [map]. rewrite join_two, !append_assoc, Hmember.
    cbn [append]. rewrite (scan_punct "," TComma) by reflexivity. cbn [step].
    rewrite scan_space.
    assert (Hd' : distinct (map fst (seen ++ [(k, json_of x)]) ++ map fst (kv :: entries))%list
                  = true) by now rewrite map_app.
    pose proof (IH ltac:(discriminate) (ObjKey (seen ++ [(k, json_of x)])%list st)
                   (seen ++ [(k, json_of x)])%list st tail eq_refl
                   ltac:(reflexivity) Hascii Hd') as IH'.
    cbn [map append] in IH'. rewrite IH'.
    cbn [map]. now rewrite <- app_assoc.
Qed.

Lemma scans_all v : plain v = true -> scans v.
Proof.
  induction v as [| s | b | items IH | entries IH] using pyval_nested_ind;
    intros Hp ps tail Hw; try discriminate.
  - cbn [render json_of]. now apply scan_null.
  - cbn [render json_of plain] in *.
    rewrite scan_string, step_value; try assumption; [reflexivity |].
    destruct ps; try discriminate; reflexivity.
  - cbn [render json_of plain] in *.
    assert (Hall : Forall scans items).
    { clear Hw. induction IH as [| x items Hx _ IHi]; constructor;
        cbn [forallb] in Hp; apply andb_true_iff in Hp as (Hx' & Hp); auto. }
    cbn [append]. rewrite (scan_punct "[" TLBracket) by reflexivity.
    assert (Hopen : step ps TLBracket = inr (ArrOpen (under ps)))
      by (destruct ps; try discriminate; reflexivity).
    rewrite Hopen.
    destruct items as [| x items].
    + cbn [map Str.join String.concat append].
      now rewrite (scan_punct "]" TRBracket) by reflexivity.
    + rewrite append_assoc.
      now rewrite (scan_items (x :: items) Hall ltac:(discriminate)
                     (ArrOpen (under ps)) [] (under ps) tail eq_refl eq_refl).
  - cbn [render json_of plain] in *.
    apply andb_true_iff in Hp as (Hd & Hp).
    assert (Hall : Forall (fun kv => scans (snd kv)) entries /\
                   forallb (fun kv => is_ascii (fst kv)) entries = true).
    { clear Hw Hd. induction IH as [| kv entries Hx _ IHe]; [now split |].
      cbn [forallb] in Hp. apply andb_true_iff in Hp as (Hx' & Hp).
      apply andb_true_iff in Hx' as (Hk & Hx').
      destruct (IHe Hp) as (H1 & H2). split; [constructor; auto |].
      cbn [forallb]. now rewrite Hk, H2. }
    destruct Hall as (Hall & Hascii).
    change (map (fun kv => JsonDumps.encode_str (fst kv) ++ ": " ++ render (snd kv)) entries)
      with (map member_text entries).
    cbn [append]. rewrite (scan_punct "{" TLBrace) by reflexivity.
    assert (Hopen : step ps TLBrace = inr (ObjOpen (under ps)))
      by (destruct ps; try discriminate; reflexivity).
    rewrite Hopen.
    destruct entries as [| kv entries].
    + cbn [map Str.join String.concat append].
      now rewrite (scan_punct "}" TRBrace) by reflexivity.
    + rewrite append_assoc.
      now rewrite (scan_members (kv :: entries) Hall ltac:(discriminate)
                     (ObjOpen (under ps)) [] (under ps) tail eq_refl
                     ltac:(reflexivity) Hascii Hd).
Qed.

Lemma loads_render v : plain v = true -> loads (render v) = inr (json_of v).
Proof.
  intros Hp. unfold loads. rewrite <- (append_empty_r (render v)).
  now rewrite (scans_all v Hp (ExpectValue []) EmptyString eq_refl).
Qed.

(** X15.  [json.loads] reads back what [json.dumps] prints: a value
    without bytes, with ASCII strings and keys, serialises, and decoding
    the text gives the JSON value it stands for, with the members and the
    items in their order. *)
Theorem loads_dumps v :
  plain v = true ->
  exists text, JsonDumps.dumps v = inr text /\ loads text = inr (json_of v).
Proof.
  intros Hp. exists (render v).
  split; [now apply dumps_render | now apply loads_render].
Qed.

End Trip.

Section Wire.

Variable nh3_clean : string -> string.
Variable network : Request -> Res Response.

Lemma is_ascii_app a b : is_ascii (a ++ b) = is_ascii a && is_ascii b.
Proof.
  induction a as [| c a IH]; [reflexivity |].
  cbn [append is_ascii]. now rewrite IH, andb_assoc.
Qed.

Lemma is_ascii_error_body t u :
  is_ascii t = true -> is_ascii u = true -> is_ascii (error_body t u) = true.
Proof.
  intros Ht Hu. unfold error_body. rewrite !is_ascii_app, Ht, Hu. reflexivity.
Qed.

Lemma alphabet_is_ascii i :
  (0 <= i < 64)%Z -> (Char.code (Base64.table_b2a i) <? 128)%Z = true.
Proof.
  intros Hi.
  apply (forall_below (fun i => (Char.code (Base64.table_b2a i) <? 128)%Z) 64);
    [vm_compute; reflexivity | exact Hi].
Qed.

Lemma is_ascii_b2a data : is_ascii (Base64.b2a data) = true.
Proof.
  assert (Hs : forall n k, (0 <= k)%Z ->
                 (Char.code (Base64.sextet n k) <? 128)%Z = true)
    by (intros n k Hk; apply alphabet_is_ascii, six_bits_range, Hk).
  induction data as [| a | a b | a b c rest IH] using list_ind3;
    cbn [Base64.b2a]; cbv zeta; cbn [is_ascii]; rewrite ?Hs by lia;
    [reflexivity | reflexivity | reflexivity | now rewrite IH].
Qed.

Lemma plain_images shots :
  forallb plain (map PStr (map Base64.b64encode_ascii shots)) = true.
Proof.
  induction shots as [| shot shots IH]; [reflexivity |].
  cbn [map forallb plain]. unfold Base64.b64encode_ascii at 1.
  now rewrite is_ascii_b2a, IH.
Qed.

(** The envelope of a report that reaches the POST is plain when its
    texts are ASCII. *)
Lemma plain_envelope self :
  truthy_str (text (_content self)) = true \/
  truthy_bytes (csv (_content self)) = false ->
  is_ascii (name (_content self)) = true ->
  is_ascii (url (_content self)) = true ->
  is_ascii (str_or (text (_content self)) EmptyString) = true ->
  is_ascii (nh3_clean (str_or (description (_content self)) EmptyString)) = true ->
  exists content,
    _get_content nh3_clean self = inr content /\
    WebhookContent.data content = None /\
    plain (envelope (name (_content self)) content) = true.
Proof.
  intros Hc Hname Hurl Htext Hdesc.
  destruct (truthy_str (text (_content self))) eqn:Ht.
  - apply truthy_str_spec in Ht as (t & Ht & Hne).
    eexists. split; [exact (get_content_error nh3_clean self t Ht Hne) |].
    split; [reflexivity |].
    rewrite Ht in Htext. destruct t as [| c t]; [now destruct Hne |].
    cbn [str_or] in Htext.
    cbn [envelope WebhookContent.make WebhookContent.body WebhookContent.data
         WebhookContent.images py_opt_dict py_opt_strs plain map fst snd forallb].
    rewrite Hname, is_ascii_error_body by assumption. reflexivity.
  - destruct Hc as [Hc | Hc]; [discriminate |].
    eexists. split; [exact (get_content_normal nh3_clean self Ht) |].
    assert (Hd : csv_data_of (_content self) = None).
    { unfold csv_data_of. destruct (csv (_content self)) as [[| x xs] |];
        [reflexivity | discriminate | reflexivity]. }
    split; [exact Hd |].
    unfold envelope, normal_content.
    cbn [WebhookContent.body WebhookContent.data WebhookContent.images py_opt_strs].
    rewrite Hd.
    cbn [py_opt_dict plain map fst snd forallb].
    rewrite Hname, Hdesc, Hurl, plain_images. reflexivity.
Qed.

(** X14.  What the endpoint receives is the envelope.  For a report that
    reaches the POST (a failed report, or one without CSV) whose name, URL,
    error text and sanitised description are ASCII, the data of the request
    is JSON text, and decoding it gives the object with the members
    [subject] and [content], the latter with [body], [data] (null) and
    [images], in this order. *)
Theorem posted_body_decodes_to_the_envelope self w to :
  _get_to self = inr to ->
  truthy_str (text (_content self)) = true \/
  truthy_bytes (csv (_content self)) = false ->
  is_ascii (name (_content self)) = true ->
  is_ascii (url (_content self)) = true ->
  is_ascii (str_or (text (_content self)) EmptyString) = true ->
  is_ascii (nh3_clean (str_or (description (_content self)) EmptyString)) = true ->
  exists content data,
    _get_content nh3_clean self = inr content /\
    posts (snd (send nh3_clean network self w))
    = (posts w ++ [post_request to data])%list /\
    JsonLoads.loads data = inr (envelope_json (name (_content self)) content).
Proof.
  intros Hto Hc Hname Hurl Htext Hdesc.
  destruct (plain_envelope self Hc Hname Hurl Htext Hdesc) as (content & Hg & Hd & Hp).
  destruct (send_posts_the_envelope nh3_clean network self w to Hto Hc)
    as (content' & data & Hg' & Hdumps & Hposts).
  assert (content' = content) as -> by congruence.
  exists content, data. split; [exact Hg |]. split; [exact Hposts |].
  pose proof (dumps_render _ Hp) as Hr.
  assert (data = render (envelope (name (_content self)) content)) as ->
    by congruence.
  rewrite (loads_render _ Hp). unfold envelope, envelope_json.
  cbn [json_of map fst snd]. now rewrite Hd.
Qed.

End Wire.

Lemma loads_dumps_witness :
  plain (envelope "Q1 Sales" report_formatted) = true /\
  exists text,
    JsonDumps.dumps (envelope "Q1 Sales" report_formatted) = inr text /\
    JsonLoads.loads text = inr (json_of (envelope "Q1 Sales" report_formatted)).
Proof.
  split; [reflexivity |].
  apply (loads_dumps (envelope "Q1 Sales" report_formatted)). reflexivity.
Defined.

Lemma posted_body_decodes_to_the_envelope_witness :
  _get_to report_to_hook = inr (JStr hook) /\
  exists content data,
    _get_content plain_clean report_to_hook = inr content /\
    posts (snd (send plain_clean ok report_to_hook world0))
    = (posts world0 ++ [post_request (JStr hook) data])%list /\
    JsonLoads.loads data = inr (envelope_json (name (_content report_to_hook)) content).
Proof.
  assert (Hto : _get_to report_to_hook = inr (JStr hook)) by (vm_compute; reflexivity).
  split; [exact Hto |].
  apply (posted_body_decodes_to_the_envelope plain_clean ok report_to_hook world0
           (JStr hook) Hto); [right |..]; reflexivity.
Defined.

(** What the endpoint reads from the sample report. *)
Example report_as_received :
  JsonLoads.loads report_text
  = inr (JObj [("subject", JStr "Q1 Sales");
               ("content",
                JObj [("body",
                       JObj [("description", JStr "Quarterly sales");
                             ("url", JStr "https://superset.example.com/chart/7")]);
                      ("data", JNull);
                      ("images", JArr [JStr "TWFu"; JStr "TQ=="])])]).
Proof. vm_compute. reflexivity. Qed.

(* ===================================================================== *)
(** * What the sanitiser sees, what the log keeps, what the wire carries *)
(* ===================================================================== *)

Section Reach.

Variable network : Request -> Res Response.

(** X16.  The sanitiser sees the description and nothing else: [send]
    depends on the sanitiser only through its answer on the description
    (or on the empty string when there is none).  The name, the URL and
    the error text never pass through it. *)
Theorem sanitiser_sees_the_description_only clean clean' self w :
  clean (str_or (description (_content self)) EmptyString)
  = clean' (str_or (description (_content self)) EmptyString) ->
  send clean network self w = send clean' network self w.
Proof.
  intros H.
  assert (Hc : _get_content clean self = _get_content clean' self).
  { destruct (truthy_str (text (_content self))) eqn:Ht.
    - apply truthy_str_spec in Ht as (t & Ht & Hne).
      now rewrite (get_content_error clean self t Ht Hne),
                  (get_content_error clean' self t Ht Hne).
    - rewrite (get_content_normal clean self Ht), (get_content_normal clean' self Ht).
      unfold normal_content. now rewrite H. }
  destruct (get_content_total clean self) as (content & Hg).
  rewrite (send_run clean network self w content Hg).
  rewrite Hc in Hg. now rewrite (send_run clean' network self w content Hg).
Qed.

(** X17.  On the normal path the header metadata of the content goes to
    the log as it is: the record of a delivered report holds the header
    metadata the content came with, the destination that [_get_to]
    resolved and the status code of the response that the client call gave
    to the serialised envelope. *)
Theorem delivered_report_logs_its_header_data clean self w w' :
  truthy_str (text (_content self)) = false ->
  send clean network self w = (inr tt, w') ->
  exists to data response,
    _get_to self = inr to /\
    JsonDumps.dumps (envelope (name (_content self))
                              (normal_content clean (_content self))) = inr data /\
    network (post_request to data) = inr response /\
    logs w' = (logs w ++ [sent_record (header_data (_content self)) to
                                      (status_code response)])%list.
Proof.
  intros Ht. rewrite (send_run clean network self w _ (get_content_normal clean self Ht)).
  destruct (_get_to self) as [e | to]; [discriminate |].
  unfold delivery.
  destruct (JsonDumps.dumps _) as [e | data]; [discriminate |].
  destruct (network _) as [e | response] eqn:Hn; [discriminate |].
  destruct (raise_for_status response) as [e | []]; [discriminate |].
  intros [= <-]. exists to, data, response. now repeat split.
Qed.

End Reach.

Lemma sanitiser_sees_the_description_only_witness :
  plain_clean (str_or (description (_content (notify bare_failed_report hook_config)))
                      EmptyString)
  = blank_clean (str_or (description (_content (notify bare_failed_report hook_config)))
                        EmptyString) /\
  send plain_clean ok (notify bare_failed_report hook_config) world0
  = send blank_clean ok (notify bare_failed_report hook_config) world0.
Proof.
  split; [reflexivity |].
  apply (sanitiser_sees_the_description_only ok plain_clean blank_clean
           (notify bare_failed_report hook_config) world0).
  reflexivity.
Defined.

Lemma delivered_report_logs_its_header_data_witness :
  truthy_str (text (_content report_to_hook)) = false /\
  send plain_clean ok report_to_hook world0
  = (inr tt, snd (send plain_clean ok report_to_hook world0)) /\
  exists to data response,
    _get_to report_to_hook = inr to /\
    JsonDumps.dumps (envelope (name (_content report_to_hook))
                              (normal_content plain_clean (_content report_to_hook)))
    = inr data /\
    ok (post_request to data) = inr response /\
    logs (snd (send plain_clean ok report_to_hook world0))
    = (logs world0 ++ [sent_record (header_data (_content report_to_hook)) to
                                   (status_code response)])%list.
Proof.
  assert (H : send plain_clean ok report_to_hook world0
              = (inr tt, snd (send plain_clean ok report_to_hook world0)))
    by (vm_compute; reflexivity).
  split; [reflexivity |]. split; [exact H |].
  exact (delivered_report_logs_its_header_data ok plain_clean report_to_hook world0 _
           eq_refl H).
Defined.

(** ** The wire is ASCII *)

Section AsciiWire.

Variable nh3_clean : string -> string.
Variable network : Request -> Res Response.

Lemma hex_digit_is_ascii x :
  (Char.code (Char.hex_digit (Z.land x 15)) <? 128)%Z = true.
Proof.
  apply (forall_below (fun i => (Char.code (Char.hex_digit i) <? 128)%Z) 16);
    [vm_compute; reflexivity |].
  change 15%Z with (Z.ones 4). rewrite Z.land_ones by lia.
  apply Z.mod_pos_bound. lia.
Qed.

Lemma hex4_is_ascii n : is_ascii (Char.hex4 n) = true.
Proof.
  unfold Char.hex4. cbn [is_ascii]. now rewrite !hex_digit_is_ascii.
Qed.

Lemma code_chr cp : (0 <= cp < 256)%Z -> Char.code (Char.chr cp) = cp.
Proof.
  intros H. unfold Char.code, Char.chr.
  rewrite N_ascii_embedding by lia. lia.
Qed.

Lemma escape_cp_is_ascii cp : is_ascii (JsonDumps.escape_cp cp) = true.
Proof.
  unfold JsonDumps.escape_cp, JsonDumps.bs.
  repeat match goal with
         | |- context [if ?b then _ else _] => destruct b eqn:?
         end;
    try reflexivity.
  - cbn [is_ascii]. rewrite code_chr by lia.
    assert (E : (cp <? 128)%Z = true) by lia. now rewrite E.
  - cbn [append is_ascii]. now rewrite hex4_is_ascii.
  - cbv zeta. cbn [append is_ascii]. rewrite is_ascii_app. cbn [is_ascii].
    now rewrite !hex4_is_ascii.
Qed.

Lemma escape_is_ascii_upto n : forall s,
  String.length s <= n -> is_ascii (JsonDumps.escape s) = true.
Proof.
  induction n as [| n IH]; intros [| c0 r0] Hn; try reflexivity;
    cbn [String.length] in Hn; [lia |].
  assert (IH' : forall r, String.length r <= String.length r0 ->
                          is_ascii (JsonDumps.escape r) = true)
    by (intros r Hr; apply IH; lia).
  cbn [JsonDumps.escape]. cbv zeta.
  repeat match goal with
         | |- context [if ?b then _ else _] => destruct b
         | |- context [match ?r with EmptyString => _ | String _ _ => _ end] =>
             destruct r; cbn [String.length] in IH'
         end;
    rewrite is_ascii_app, escape_cp_is_ascii; apply IH'; cbn [String.length]; lia.
Qed.

Lemma escape_is_ascii s : is_ascii (JsonDumps.escape s) = true.
Proof. now apply (escape_is_ascii_upto (String.length s)). Qed.

Lemma encode_str_is_ascii s : is_ascii (JsonDumps.encode_str s) = true.
Proof.
  unfold JsonDumps.encode_str. cbn [is_ascii]. rewrite is_ascii_app, escape_is_ascii.
  reflexivity.
Qed.

Lemma join_is_ascii parts :
  Forall (fun p => is_ascii p = true) parts -> is_ascii (Str.join ", " parts) = true.
Proof.
  induction 1 as [| p parts Hp Hparts IH]; [reflexivity |].
  destruct parts as [| q parts]; [exact Hp |].
  change (Str.join ", " (p :: q :: parts)) with (p ++ ", " ++ Str.join ", " (q :: parts)).
  now rewrite !is_ascii_app, Hp, IH.
Qed.

(** Whatever [json.dumps] prints is ASCII. *)
Lemma dumps_is_ascii v : forall text, JsonDumps.dumps v = inr text -> is_ascii text = true.
Proof.
  induction v as [| s | b | items IH | entries IH] using pyval_nested_ind;
    intros text; cbn [JsonDumps.dumps].
  - now intros [= <-].
  - intros [= <-]. apply encode_str_is_ascii.
  - discriminate.
  - match goal with
    | |- res_map _ ?x = _ -> _ =>
        assert (E : forall parts, x = inr parts ->
                                  Forall (fun p => is_ascii p = true) parts)
    end.
    { induction IH as [| x items Hx _ IHi]; intros parts.
      - intros [= <-]. constructor.
      - destruct (JsonDumps.dumps x) as [e | sx]; cbn [res_bind]; [discriminate |].
        match goal with
        | |- res_map _ ?y = _ -> _ => destruct y as [e | rest]
        end; cbn [res_map res_bind]; [discriminate |].
        intros [= <-]. constructor; [now apply Hx | now apply IHi]. }
    match goal with
    | |- res_map _ ?x = _ -> _ => destruct x as [e | parts]
    end; cbn [res_map res_bind]; [discriminate |].
    intros [= <-]. cbn [is_ascii]. rewrite is_ascii_app, join_is_ascii by now apply E.
    reflexivity.
  - match goal with
    | |- res_map _ ?x = _ -> _ =>
        assert (E : forall parts, x = inr parts ->
                                  Forall (fun p => is_ascii p = true) parts)
    end.
    { induction IH as [| [k x] entries Hx _ IHe]; intros parts.
      - intros [= <-]. constructor.
      - cbn [snd] in Hx.
        destruct (JsonDumps.dumps x) as [e | sx]; cbn [res_bind]; [discriminate |].
        match goal with
        | |- res_map _ ?y = _ -> _ => destruct y as [e | rest]
        end; cbn [res_map res_bind]; [discriminate |].
        intros [= <-]. constructor; [| now apply IHe].
        cbn [is_ascii]. rewrite !is_ascii_app, escape_is_ascii. cbn [is_ascii].
        rewrite (Hx sx eq_refl). reflexivity. }
    match goal with
    | |- res_map _ ?x = _ -> _ => destruct x as [e | parts]
    end; cbn [res_map res_bind]; [discriminate |].
    intros [= <-]. cbn [is_ascii]. rewrite is_ascii_app, join_is_ascii by now apply E.
    reflexivity.
Qed.

(** X18.  Whatever the texts of the report hold, the data of every request
    that [send] posts is ASCII: the serialiser escapes every character
    beyond. *)
Theorem posted_body_is_ascii self w req :
  In req (posts (snd (send nh3_clean network self w))) ->
  In req (posts w) \/ is_ascii (req_data req) = true.
Proof.
  destruct (get_content_total nh3_clean self) as (content & Hc).
  rewrite (send_run nh3_clean network self w _ Hc).
  destruct (_get_to self) as [e | to]; [now left |].
  unfold delivery.
  destruct (JsonDumps.dumps _) as [e | data] eqn:Hd; [now left |].
  assert (Hin : In req (posts w ++ [post_request to data])%list ->
                In req (posts w) \/ is_ascii (req_data req) = true).
  { intros H. apply in_app_or in H as [H | [<- | []]]; [now left | right].
    exact (dumps_is_ascii _ _ Hd). }
  destruct (network _) as [e | response]; [exact Hin |].
  destruct (raise_for_status response) as [e | []]; exact Hin.
Qed.

End AsciiWire.

Lemma posted_body_is_ascii_witness :
  is_ascii (name (_content cafe_to_hook)) = false /\
  In cafe_request (posts (snd (send plain_clean ok cafe_to_hook world0))) /\
  (In cafe_request (posts world0) \/ is_ascii (req_data cafe_request) = true).
Proof.
  split; [reflexivity |].
  assert (H : In cafe_request (posts (snd (send plain_clean ok cafe_to_hook world0))))
    by (vm_compute; left; reflexivity).
  split; [exact H |].
  exact (posted_body_is_ascii plain_clean ok cafe_to_hook world0 cafe_request H).
Defined.

(** The accented letter travels as an escape. *)
Example cafe_subject_on_the_wire :
  String.prefix ("{" ++ quoted "subject" ++ ": " ++ quoted ("Caf" ++ "\u00e9"))
                cafe_text = true.
Proof. vm_compute. reflexivity. Qed.
